(** * Upload backend: a shallow embedding of [main.py]

    The first part holds the definitions, in the order of the source file:

    - strings, [datetime.strftime] and [os.path.join] as the program
      uses them,
    - the world the persister acts on: a file store, the set of
      directories, the open upload streams, and two counters that index
      the clock and the outcome of each filesystem operation,
    - [_save_files], [submit_plan], [custom_request], [test_database],
    - the vocabulary of the properties.

    The second part holds the lemmas and the properties themselves.

    Python [str] values are kept as UTF-8 byte strings.  The two characters
    the code looks for ([/] and the backslash) are ASCII, and UTF-8 never
    uses an ASCII byte inside a multi-byte sequence, so a replacement on
    bytes is the replacement on code points. *)

From Stdlib Require Import NArith Ascii.
From stdpp Require Import gmap strings list fin_maps.

#[local] Set Warnings "-register-all".

(** * Part I: definitions *)

(** ** Characters and strings *)

Module Str.

Definition slash : ascii := "/"%char.
Definition backslash : ascii := "092"%char.
Definition underscore : ascii := "_"%char.

(** [s.startswith(c)] for a one-character [c]. *)
Definition startswith (c : ascii) (s : string) : bool :=
  match s with
  | EmptyString => false
  | String a _ => bool_decide (a = c)
  end.

(** [s.endswith(c)] for a one-character [c]. *)
Fixpoint endswith (c : ascii) (s : string) : bool :=
  match s with
  | EmptyString => false
  | String a EmptyString => bool_decide (a = c)
  | String _ s' => endswith c s'
  end.

(** [s.replace(a, b)] where both [a] and [b] are one character long:
    every occurrence is replaced, nothing else moves. *)
Fixpoint replace (a b : ascii) (s : string) : string :=
  match s with
  | EmptyString => EmptyString
  | String c s' => String (if bool_decide (c = a) then b else c) (replace a b s')
  end.

(** [c in s] for a one-character [c]. *)
Fixpoint mem (c : ascii) (s : string) : bool :=
  match s with
  | EmptyString => false
  | String a s' => bool_decide (a = c) || mem c s'
  end.

(** [s.startswith(p)] *)
Fixpoint isprefix (p s : string) : bool :=
  match p, s with
  | EmptyString, _ => true
  | String a p', String b s' => bool_decide (a = b) && isprefix p' s'
  | String _ _, EmptyString => false
  end.

(** [sub in s] *)
Fixpoint contains (sub s : string) : bool :=
  isprefix sub s
  || match s with
     | EmptyString => false
     | String _ s' => contains sub s'
     end.

(** A byte of the form [10xxxxxx] continues a UTF-8 code point. *)
Definition is_continuation (c : ascii) : bool :=
  match c with
  | Ascii _ _ _ _ _ _ b6 b7 => b7 && negb b6
  end.

(** [s[:n]] on a Python [str]: the first [n] code points. *)
Fixpoint take_chars (n : nat) (s : string) : string :=
  match s with
  | EmptyString => EmptyString
  | String c s' =>
      if is_continuation c then String c (take_chars n s')
      else match n with
           | O => EmptyString
           | S n' => String c (take_chars n' s')
           end
  end.

End Str.

(** ** [datetime] and [strftime]

    A [datetime] carries the seven fields of Python's class.  The class
    keeps every field in its calendar range ([wellformed] below), and in
    that range [%m %d %H %M %S] are two decimal digits and [%f] is six,
    which is what [zpad] writes.  [%Y] is written with four digits: this
    is what [strftime] gives for the years 1000 to 9999, the only ones
    [utcnow()] returns; for a year below 1000 the C library decides
    whether the year is padded, and the rendering below pads it. *)

Module Datetime.

Record datetime : Type := mk_datetime {
  year : N; month : N; day : N;
  hour : N; minute : N; second : N; microsecond : N }.

Definition wellformed (d : datetime) : Prop :=
  (1 ≤ year d ≤ 9999 ∧ 1 ≤ month d ≤ 12 ∧ 1 ≤ day d ≤ 31
   ∧ hour d < 24 ∧ minute d < 60 ∧ second d < 60
   ∧ microsecond d < 1000000)%N.

Definition digit (d : N) : ascii := ascii_of_N (48 + d).

(** The last [w] decimal digits of [n], most significant first. *)
Fixpoint zpad (w : nat) (n : N) : string :=
  match w with
  | O => EmptyString
  | S w' => zpad w' (n / 10) +:+ String (digit (n mod 10)) EmptyString
  end.

(** [d.strftime("%Y%m%d%H%M%S%f")] *)
Definition strftime_YmdHMSf (d : datetime) : string :=
  zpad 4 (year d) +:+ zpad 2 (month d) +:+ zpad 2 (day d) +:+
  zpad 2 (hour d) +:+ zpad 2 (minute d) +:+ zpad 2 (second d) +:+
  zpad 6 (microsecond d).

(** [d.strftime("%Y%m%d")] *)
Definition strftime_Ymd (d : datetime) : string :=
  zpad 4 (year d) +:+ zpad 2 (month d) +:+ zpad 2 (day d).

End Datetime.

(** ** [os.path.join], as [posixpath] defines it for two components *)

Module Posixpath.

Definition sep : string := String Str.slash EmptyString.

Definition join (a b : string) : string :=
  if Str.startswith Str.slash b then b
  else if bool_decide (a = EmptyString) || Str.endswith Str.slash a then a +:+ b
  else a +:+ sep +:+ b.

(** The directory part that [join a] puts in front of a relative name. *)
Definition dir_prefix (a : string) : string :=
  if bool_decide (a = EmptyString) || Str.endswith Str.slash a then a else a +:+ sep.

End Posixpath.

(** ** The world outside the program

    [Env] is what the program can only observe: the working directory at
    import time, the instant the clock shows at each reading, and whether
    each filesystem operation goes through.  Both sequences are indexed by
    a counter kept in the [World], so a run is a function of [Env] and of
    the initial [World] and nothing in it is decided by the model: every
    permission error, full disk or coarse clock is some [Env]. *)

Abbreviation bytes := (list Byte.byte).

(** What happens to one filesystem operation.  [Fails done msg] is an
    [OSError] whose text is [msg], raised after [done] units of the
    operation took effect (bytes of a write, directories of a
    [makedirs]; an [open] or a [read] that fails leaves nothing). *)
Inductive fs_event : Type :=
  | Succeeds
  | Fails (done : nat) (msg : string).

Record Env : Type := mk_Env {
  cwd : string;
  utcnow : nat → Datetime.datetime;
  fs_outcome : nat → fs_event }.

Record World : Type := mk_World {
  fs_files : gmap string bytes;      (* regular files and their contents *)
  fs_dirs : gset string;             (* directories *)
  streams : gmap nat bytes;          (* open byte sources: what is left to read *)
  ticks : nat;                       (* clock readings so far *)
  ops : nat }.                       (* filesystem operations so far *)

(** Exceptions the persister can let through, and [str(e)]. *)
Inductive exn : Type :=
  | OSError (msg : string)
  | ValueError (msg : string).

Definition str_exn (e : exn) : string :=
  match e with
  | OSError msg => msg
  | ValueError msg => msg
  end.

Inductive outcome (E A : Type) : Type :=
  | Return (a : A)
  | Raise (e : E).
Arguments Return {E A} a.
Arguments Raise {E A} e.

(** Computations that read and change the world and may raise.  The world
    is kept when an exception is raised: nothing is rolled back. *)
Definition M (E A : Type) : Type := World → outcome E A * World.

Global Instance M_ret {E} : MRet (M E) := λ A a w, (Return a, w).

Global Instance M_bind {E} : MBind (M E) := λ A B k m w,
  match m w with
  | (Return a, w') => k a w'
  | (Raise e, w') => (Raise e, w')
  end.

Definition raise {E A} (e : E) : M E A := λ w, (Raise e, w).

(** [try: body except ...: handler] *)
Definition try_except {E E' A} (body : M E A) (handler : E → M E' A) : M E' A :=
  λ w, match body w with
       | (Return a, w') => (Return a, w')
       | (Raise e, w') => handler e w'
       end.

(** A computation run where more kinds of exception can be raised. *)
Definition lift_exn {E E' A} (inj : E → E') (m : M E A) : M E' A :=
  λ w, match m w with
       | (Return a, w') => (Return a, w')
       | (Raise e, w') => (Raise (inj e), w')
       end.

(** ** Primitive operations *)

Section primitives.
Context (env : Env).

Definition tick_op (w : World) : World :=
  mk_World (fs_files w) (fs_dirs w) (streams w) (ticks w) (S (ops w)).

(** [datetime.utcnow()] *)
Definition datetime_utcnow : M exn Datetime.datetime := λ w,
  (Return (utcnow env (ticks w)),
   mk_World (fs_files w) (fs_dirs w) (streams w) (S (ticks w)) (ops w)).

(** The directories [os.makedirs(path)] goes through above [path],
    outermost first: every non-empty prefix of [path] that stops before
    a [/]. *)
Fixpoint parents (pre rest : string) : list string :=
  match rest with
  | EmptyString => []
  | String c rest' =>
      (if bool_decide (c = Str.slash) && negb (bool_decide (pre = EmptyString))
       then [pre] else [])
      ++ parents (pre +:+ String c EmptyString) rest'
  end.

Definition makedirs_chain (path : string) : list string :=
  parents EmptyString path ++ [path].

(** [os.makedirs(path, exist_ok=True)] *)
Definition os_makedirs (path : string) : M exn () := λ w,
  let w' (created : list string) :=
    mk_World (fs_files w) (list_to_set created ∪ fs_dirs w) (streams w)
             (ticks w) (S (ops w)) in
  match fs_outcome env (ops w) with
  | Succeeds => (Return (), w' (makedirs_chain path))
  | Fails k msg => (Raise (OSError msg), w' (take k (makedirs_chain path)))
  end.

(** [open(path, "wb")]: the file is created, or emptied if it exists. *)
Definition open_wb (path : string) : M exn () := λ w,
  match fs_outcome env (ops w) with
  | Succeeds =>
      (Return (),
       mk_World (<[path := []]> (fs_files w)) (fs_dirs w) (streams w)
                (ticks w) (S (ops w)))
  | Fails _ msg => (Raise (OSError msg), tick_op w)
  end.

(** [f.file.read()]: everything left in the stream, which is then at its
    end.  A handle that is not open raises [ValueError]. *)
Definition file_read (h : nat) : M exn bytes := λ w,
  match streams w !! h with
  | None => (Raise (ValueError "I/O operation on closed file."), w)
  | Some data =>
      match fs_outcome env (ops w) with
      | Succeeds =>
          (Return data,
           mk_World (fs_files w) (fs_dirs w) (<[h := []]> (streams w))
                    (ticks w) (S (ops w)))
      | Fails _ msg => (Raise (OSError msg), tick_op w)
      end
  end.

(** [out.write(data)] up to the end of the [with] block, on the file
    opened at [path]: [data] goes after what the file holds. *)
Definition file_write (path : string) (data : bytes) : M exn () := λ w,
  let w' (written : bytes) :=
    mk_World (<[path := default [] (fs_files w !! path) ++ written]> (fs_files w))
             (fs_dirs w) (streams w) (ticks w) (S (ops w)) in
  match fs_outcome env (ops w) with
  | Succeeds => (Return (), w' data)
  | Fails k msg => (Raise (OSError msg), w' (take k data))
  end.

End primitives.

(** ** The persister *)

Record UploadFile : Type := mk_UploadFile {
  filename : option string;          (* [None] when the client sent none *)
  file : nat }.                      (* handle of the byte source *)

Section persister.
Context (env : Env).

(** [UPLOAD_DIR = os.path.join(os.getcwd(), "uploads")] *)
Definition UPLOAD_DIR : string := Posixpath.join (cwd env) "uploads".

(** Module level: [os.makedirs(UPLOAD_DIR, exist_ok=True)] *)
Definition module_import : M exn () := os_makedirs env UPLOAD_DIR.

(** [f.filename or "file"]: [None] and the empty string are both falsy. *)
Definition filename_or_file (f : UploadFile) : string :=
  match filename f with
  | None | Some EmptyString => "file"
  | Some name => name
  end.

(** [filename.replace("/", "_").replace("\\", "_")] *)
Definition safe_name (filename : string) : string :=
  Str.replace Str.backslash Str.underscore
    (Str.replace Str.slash Str.underscore filename).

(** [f"{ts}_{safe_name}"] *)
Definition stored_name (ts filename : string) : string :=
  ts +:+ "_" +:+ safe_name filename.

(** The body of the [for] loop, for one item; its value is [out_path]. *)
Definition save_one (dest_dir : string) (f : UploadFile) : M exn string :=
  let filename := filename_or_file f in
  now ← datetime_utcnow env;
  let ts := Datetime.strftime_YmdHMSf now in
  let out_path := Posixpath.join dest_dir (stored_name ts filename) in
  open_wb env out_path;;
  data ← file_read env (file f);
  file_write env out_path data;;
  mret out_path.

(** The [for] loop, with [saved_paths] as it stands when the loop
    reaches [files]. *)
Fixpoint save_loop (dest_dir : string) (files : list UploadFile)
    (saved_paths : list string) : M exn (list string) :=
  match files with
  | [] => mret saved_paths
  | f :: rest =>
      out_path ← save_one dest_dir f;
      save_loop dest_dir rest (saved_paths ++ [out_path])
  end.

Definition _save_files (files : list UploadFile) (subdir : string)
    : M exn (list string) :=
  let saved_paths := [] in
  match files with
  | [] => mret saved_paths
  | _ =>
      let dest_dir := Posixpath.join UPLOAD_DIR subdir in
      os_makedirs env dest_dir;;
      save_loop dest_dir files saved_paths
  end.

End persister.

(** ** Values sent back to the client *)

(** The JSON-like Python values the handlers build.  A [dict] keeps its
    keys in insertion order, so it is an association list. *)
Inductive json : Type :=
  | JNone
  | JBool (b : bool)
  | JInt (z : Z)
  | JStr (s : string)
  | JList (l : list json)
  | JDict (d : list (string * json)).

(** [d[k]] *)
Fixpoint dict_get (k : string) (d : list (string * json)) : option json :=
  match d with
  | [] => None
  | (k', v) :: d' => if bool_decide (k' = k) then Some v else dict_get k d'
  end.

(** [d[k] = v]: an existing key keeps its place, a new one goes last. *)
Fixpoint dict_set (k : string) (v : json) (d : list (string * json))
    : list (string * json) :=
  match d with
  | [] => [(k, v)]
  | (k', v') :: d' =>
      if bool_decide (k' = k) then (k, v) :: d' else (k', v') :: dict_set k v d'
  end.

Record HTTPException : Type := mk_HTTPException {
  status_code : nat;
  detail : string }.

Record JSONResponse : Type := mk_JSONResponse {
  response_status : nat;
  content : json }.

(** What the framework sends for a handler's outcome: the response as it
    is, or for an [HTTPException] its status code with [{"detail": ...}]. *)
Definition http_reply (r : outcome HTTPException JSONResponse) : nat * json :=
  match r with
  | Return resp => (response_status resp, content resp)
  | Raise e => (status_code e, JDict [("detail", JStr (detail e))])
  end.

(** ** The form handlers *)

(** A file field of the form as the handler may receive it: nothing, one
    upload on its own, or a list of uploads. *)
Inductive file_field : Type :=
  | NoFiles
  | OneFile (f : UploadFile)
  | FileList (l : list UploadFile).

(** [if batch:] *)
Definition truthy (batch : file_field) : bool :=
  match batch with
  | NoFiles => false
  | OneFile _ => true
  | FileList [] => false
  | FileList (_ :: _) => true
  end.

(** The loop over [[files_0, files_1, files_2, files_3]] that fills
    [batches]. *)
Fixpoint collect_batches (fields : list file_field)
    (batches : list (list UploadFile)) : list (list UploadFile) :=
  match fields with
  | [] => batches
  | batch :: rest =>
      collect_batches rest
        (if truthy batch then
           match batch with
           | FileList l => batches ++ [l]
           | OneFile f => batches ++ [[f]]
           | NoFiles => batches
           end
         else batches)
  end.

(** [[uf for group in batches for uf in (group or [])]] *)
Definition flatten_uploads (batches : list (list UploadFile)) : list UploadFile :=
  concat batches.

Section handlers.
Context (env : Env).

(** The handlers are written over the persister they call, so that
    "the persister is not called" can be said: the outcome is then the
    same whatever the persister is.  The program's handlers, below the
    section, call [_save_files]. *)
Context (persist : list UploadFile → string → M exn (list string)).

Definition submit_plan_with
    (plan : string) (max_photos : Z) (brand email : string)
    (products : option Z) (files_0 files_1 files_2 files_3 : file_field)
    : M HTTPException JSONResponse :=
  try_except
    (let batches := collect_batches [files_0; files_1; files_2; files_3] [] in
     let all_uploads := flatten_uploads batches in
     match all_uploads with
     | [] => raise (inl (mk_HTTPException 422 "Nenhum ficheiro enviado"))
     | _ =>
         now ← lift_exn inr (datetime_utcnow env);
         let subdir := "plan_" +:+ plan +:+ "_" +:+ Datetime.strftime_Ymd now in
         saved ← lift_exn inr (persist all_uploads subdir);
         let payload :=
           JDict [("plan", JStr plan);
                  ("max_photos", JInt max_photos);
                  ("brand", JStr brand);
                  ("email", JStr email);
                  ("products", from_option JInt JNone products);
                  ("saved_count", JInt (Z.of_nat (length saved)))] in
         mret (mk_JSONResponse 200
                 (JDict [("ok", JBool true);
                         ("message", JStr "Recebido");
                         ("data", payload)]))
     end)
    (λ e, match e with
          | inl http => raise http
          | inr e => raise (mk_HTTPException 500 (str_exn e))
          end).

Definition custom_request_with
    (description brand email : string) (reference : option UploadFile)
    : M HTTPException JSONResponse :=
  try_except
    (saved ← match reference with
             | Some f => persist [f] "custom"
             | None => mret []
             end;
     let payload :=
       JDict [("description", JStr description);
              ("brand", JStr brand);
              ("email", JStr email);
              ("saved_count", JInt (Z.of_nat (length saved)))] in
     mret (mk_JSONResponse 200
             (JDict [("ok", JBool true);
                     ("message", JStr "Pedido recebido");
                     ("data", payload)])))
    (λ e, raise (mk_HTTPException 500 (str_exn e))).

End handlers.

Definition submit_plan (env : Env) :=
  submit_plan_with env (_save_files env).

Definition custom_request (env : Env) :=
  custom_request_with (_save_files env).

(** ** The diagnostics endpoint *)

(** Reading [db.name]: the attribute is missing, has a value, or its
    getter raises something other than [AttributeError], which [hasattr]
    lets through: an [ImportError], or another exception with its
    [str(e)]. *)
Inductive attribute : Type :=
  | NoAttribute
  | HasValue (v : json)
  | GetterImportError
  | GetterRaises (msg : string).

(** The database handle: its [name], and what [list_collection_names()]
    gives, the names or [str(e)] of what the call raised. *)
Record Database : Type := mk_Database {
  name : attribute;
  list_collection_names : outcome string (list string) }.

(** [from database import db] *)
Inductive import_result : Type :=
  | ModuleNotFound                   (* [ImportError] *)
  | ImportRaises (msg : string)      (* any other exception, with [str(e)] *)
  | Imported (db : option Database). (* [db], which may be [None] *)

Record Probe : Type := mk_Probe {
  import_database : import_result;
  getenv : string → option string }.

(** [if os.getenv(k)]: unset and empty are both falsy. *)
Definition getenv_truthy (p : Probe) (k : string) : bool :=
  match getenv p k with
  | None | Some EmptyString => false
  | Some _ => true
  end.

Definition test_database (p : Probe) : list (string * json) :=
  let response :=
    [("backend", JStr "✅ Running");
     ("database", JStr "❌ Not Available");
     ("database_url", JNone);
     ("database_name", JNone);
     ("connection_status", JStr "Not Connected");
     ("collections", JList [])] in
  let response :=
    match import_database p with
    | Imported (Some db) =>
        let response := dict_set "database" (JStr "✅ Available") response in
        let response := dict_set "database_url" (JStr "✅ Configured") response in
        match name db with
        | GetterImportError =>
            dict_set "database"
              (JStr "❌ Database module not found (run enable-database first)")
              response
        | GetterRaises msg =>
            dict_set "database" (JStr ("❌ Error: " +:+ Str.take_chars 50 msg)) response
        | attr =>
            let response :=
              dict_set "database_name"
                (match attr with HasValue v => v | _ => JStr "✅ Connected" end)
                response in
            let response := dict_set "connection_status" (JStr "Connected") response in
            match list_collection_names db with
            | Return collections =>
                let response :=
                  dict_set "collections" (JList (JStr <$> take 10 collections))
                    response in
                dict_set "database" (JStr "✅ Connected & Working") response
            | Raise msg =>
                dict_set "database"
                  (JStr ("⚠️  Connected but Error: " +:+ Str.take_chars 50 msg))
                  response
            end
        end
    | Imported None =>
        dict_set "database" (JStr "⚠️  Available but not initialized") response
    | ModuleNotFound =>
        dict_set "database"
          (JStr "❌ Database module not found (run enable-database first)") response
    | ImportRaises msg =>
        dict_set "database" (JStr ("❌ Error: " +:+ Str.take_chars 50 msg)) response
    end in
  let response :=
    dict_set "database_url"
      (JStr (if getenv_truthy p "DATABASE_URL" then "✅ Set" else "❌ Not Set"))
      response in
  let response :=
    dict_set "database_name"
      (JStr (if getenv_truthy p "DATABASE_NAME" then "✅ Set" else "❌ Not Set"))
      response in
  response.

(** ** Vocabulary of the properties *)

(** The path the loop body uses for item [f] when the clock has been read
    [t] times before. *)
Definition out_path (env : Env) (dest_dir : string) (t : nat) (f : UploadFile)
    : string :=
  Posixpath.join dest_dir
    (stored_name (Datetime.strftime_YmdHMSf (utcnow env t)) (filename_or_file f)).

(** The paths of a whole batch, the clock being read once per item. *)
Fixpoint generated_paths (env : Env) (dest_dir : string) (t : nat)
    (files : list UploadFile) : list string :=
  match files with
  | [] => []
  | f :: rest => out_path env dest_dir t f :: generated_paths env dest_dir (S t) rest
  end.

(** No filesystem operation numbered from [a] up to [b] (excluded) fails. *)
Definition quiet (env : Env) (a b : nat) : Prop :=
  ∀ n, a ≤ n < b → fs_outcome env n = Succeeds.

(** [path] is [dest_dir], a separator, and a name with no separator in
    it: a file in [dest_dir] itself. *)
Definition directly_inside (dest_dir path : string) : Prop :=
  ∃ base, path = Posixpath.dir_prefix dest_dir +:+ base
          ∧ Str.mem Str.slash base = false
          ∧ Str.mem Str.backslash base = false.

(** A file field that is absent or empty. *)
Definition no_upload (batch : file_field) : Prop :=
  batch = NoFiles ∨ batch = FileList [].

(** *** Sample inputs *)

Definition instant_example : Datetime.datetime :=
  Datetime.mk_datetime 2024 3 9 7 5 1 42.

(** A clock that shows the same microsecond at every reading, and one
    that moves on by a microsecond between readings. *)
Definition frozen_clock (t : nat) : Datetime.datetime := instant_example.
Definition ticking_clock (t : nat) : Datetime.datetime :=
  Datetime.mk_datetime 2024 3 9 7 5 1 (N.of_nat t).

Definition env_frozen : Env :=
  mk_Env "/srv/app" frozen_clock (λ _, Succeeds).
Definition env_ticking : Env :=
  mk_Env "/srv/app" ticking_clock (λ _, Succeeds).

(** The disk fills up at the filesystem operation numbered [k]. *)
Definition env_failing_at (k : nat) : Env :=
  mk_Env "/srv/app" ticking_clock
    (λ n, if bool_decide (n = k) then Fails 0 "No space left on device"
          else Succeeds).

Definition world_three_uploads : World :=
  mk_World ∅ ∅
    (<[0 := [Byte.x01]]> (<[1 := [Byte.x02]]> (<[2 := [Byte.x03]]> ∅))) 0 0.

Definition two_same_name : list UploadFile :=
  [mk_UploadFile (Some "a.png") 0; mk_UploadFile (Some "a.png") 1].

(** The worlds a batch goes through when the disk fills up at operation 6,
    the write of the second item: after [makedirs], after the first item,
    and after the failing pass. *)
Definition world_after_makedirs : World :=
  Eval vm_compute in
    (os_makedirs (env_failing_at 6) "/srv/app/uploads/custom"
       world_three_uploads).2.
Definition world_after_first : World :=
  Eval vm_compute in
    (save_loop (env_failing_at 6) "/srv/app/uploads/custom"
       [mk_UploadFile (Some "a.png") 0] [] world_after_makedirs).2.
Definition world_after_failure : World :=
  Eval vm_compute in
    (save_one (env_failing_at 6) "/srv/app/uploads/custom"
       (mk_UploadFile (Some "b.png") 1) world_after_first).2.

Definition probe_bare : Probe := mk_Probe ModuleNotFound (λ _, None).

(** [DATABASE_URL] is set, to the empty string. *)
Definition probe_empty_url : Probe :=
  mk_Probe ModuleNotFound
    (λ k, if bool_decide (k = "DATABASE_URL") then Some EmptyString else None).

(** *** Three statements that the program does not meet as they stand *)

(** Every batch of distinct open sources comes back, when nothing fails,
    as one path per item, in order, each holding its item's bytes. *)
Definition round_trip_claim : Prop :=
  ∀ env files subdir w,
    files ≠ [] →
    NoDup (file <$> files) →
    Forall (λ f, is_Some (streams w !! file f)) files →
    (∀ n, fs_outcome env n = Succeeds) →
    ∃ paths w',
      _save_files env files subdir w = (Return paths, w')
      ∧ length paths = length files
      ∧ ∀ i f, files !! i = Some f →
          ∃ p, paths !! i = Some p ∧ fs_files w' !! p = streams w !! file f.

(** The paths of a batch of two or more items are pairwise distinct. *)
Definition distinct_names_claim : Prop :=
  ∀ env files subdir w paths,
    2 ≤ length files →
    (_save_files env files subdir w).1 = Return paths →
    NoDup paths.

(** The two environment fields of [/test] say whether the variable is set. *)
Definition env_fields_claim : Prop :=
  ∀ p,
    dict_get "database_url" (test_database p)
    = Some (JStr (if bool_decide (is_Some (getenv p "DATABASE_URL"))
                  then "✅ Set" else "❌ Not Set"))
    ∧ dict_get "database_name" (test_database p)
      = Some (JStr (if bool_decide (is_Some (getenv p "DATABASE_NAME"))
                    then "✅ Set" else "❌ Not Set")).

(** ** The two greeting routes *)

(** [read_root()] *)
Definition read_root : list (string * json) :=
  [("message", JStr "Hello from FastAPI Backend!")].

(** [hello()] *)
Definition hello : list (string * json) :=
  [("message", JStr "Hello from the backend API!")].

(** ** Further vocabulary *)

Module Utf8.

(** The number of code points of a UTF-8 string: its bytes that do not
    continue a code point. *)
Fixpoint code_points (s : string) : nat :=
  match s with
  | EmptyString => 0
  | String c s' => (if Str.is_continuation c then 0 else 1) + code_points s'
  end.

End Utf8.

Module DatetimeOrder.
Import Datetime.

(** [d1 < d2], [d1 == d2], [d1 > d2] on two naive datetimes: the fields
    are compared from the year down to the microsecond. *)
Definition compare (d1 d2 : datetime) : comparison :=
  match N.compare (year d1) (year d2) with
  | Eq =>
    match N.compare (month d1) (month d2) with
    | Eq =>
      match N.compare (day d1) (day d2) with
      | Eq =>
        match N.compare (hour d1) (hour d2) with
        | Eq =>
          match N.compare (minute d1) (minute d2) with
          | Eq =>
            match N.compare (second d1) (second d2) with
            | Eq => N.compare (microsecond d1) (microsecond d2)
            | c => c
            end
          | c => c
          end
        | c => c
        end
      | c => c
      end
    | c => c
    end
  | c => c
  end.

End DatetimeOrder.

(** What [f.file.read()] gives for item [i] of a batch when every read
    succeeds: the bytes left in its source when the batch starts, unless
    an earlier item of the batch has the same source and has read it to
    its end. *)
Definition bytes_read (w : World) (files : list UploadFile) (i : nat)
    (f : UploadFile) : bytes :=
  if bool_decide (file f ∈ file <$> take i files) then []
  else default [] (streams w !! file f).

(** The uploads of one file field, as the handler normalises it. *)
Definition uploads_of (batch : file_field) : list UploadFile :=
  match batch with
  | NoFiles => []
  | OneFile f => [f]
  | FileList l => l
  end.

(** The batch [submit_plan] hands to the persister. *)
Definition plan_uploads (files_0 files_1 files_2 files_3 : file_field)
    : list UploadFile :=
  uploads_of files_0 ++ uploads_of files_1
  ++ uploads_of files_2 ++ uploads_of files_3.

(** The world once the clock has been read. *)
Definition after_clock_read (w : World) : World :=
  mk_World (fs_files w) (fs_dirs w) (streams w) (S (ticks w)) (ops w).

(** The subdirectory [submit_plan] builds when it reads the clock in [w]. *)
Definition plan_subdir (env : Env) (plan : string) (w : World) : string :=
  "plan_" +:+ plan +:+ "_" +:+ Datetime.strftime_Ymd (utcnow env (ticks w)).

(** The two acknowledgements, for [n] stored files. *)
Definition plan_receipt (plan : string) (max_photos : Z) (brand email : string)
    (products : option Z) (n : nat) : JSONResponse :=
  mk_JSONResponse 200
    (JDict [("ok", JBool true);
            ("message", JStr "Recebido");
            ("data", JDict [("plan", JStr plan);
                            ("max_photos", JInt max_photos);
                            ("brand", JStr brand);
                            ("email", JStr email);
                            ("products", from_option JInt JNone products);
                            ("saved_count", JInt (Z.of_nat n))])]).

Definition custom_receipt (description brand email : string) (n : nat)
    : JSONResponse :=
  mk_JSONResponse 200
    (JDict [("ok", JBool true);
            ("message", JStr "Pedido recebido");
            ("data", JDict [("description", JStr description);
                            ("brand", JStr brand);
                            ("email", JStr email);
                            ("saved_count", JInt (Z.of_nat n))])]).

(** What a handler makes of the persister's outcome. *)
Definition acknowledge (receipt : nat → JSONResponse)
    (r : outcome exn (list string)) : outcome HTTPException JSONResponse :=
  match r with
  | Return saved => Return (receipt (length saved))
  | Raise e => Raise (mk_HTTPException 500 (str_exn e))
  end.

(** The keys of the diagnostics response, in order. *)
Definition diagnostic_keys : list string :=
  ["backend"; "database"; "database_url"; "database_name";
   "connection_status"; "collections"].

(** *** Further sample inputs *)

(** One source handed over twice in a batch. *)
Definition same_source_twice : list UploadFile :=
  [mk_UploadFile (Some "a.png") 0; mk_UploadFile (Some "b.png") 0].

(** [os.makedirs] itself fails. *)
Definition env_makedirs_fails : Env :=
  mk_Env "/srv/app" ticking_clock
    (λ n, if bool_decide (n = 0) then Fails 1 "Permission denied" else Succeeds).

Definition probe_import_raises : Probe :=
  mk_Probe (ImportRaises "boom") (λ _, None).

(** * Part II: lemmas and properties *)

Ltac unfold_M :=
  unfold mbind, M_bind, mret, M_ret, raise, try_except, lift_exn,
    datetime_utcnow, open_wb, file_read, file_write, os_makedirs, tick_op in *.

(** ** Strings *)

Module StrFacts.

Lemma app_cons c s t : String c s +:+ t = String c (s +:+ t).
Proof. reflexivity. Qed.

Lemma app_nil_r s : s +:+ EmptyString = s.
Proof. induction s as [|c s IH]; [done | by rewrite app_cons, IH]. Qed.

Lemma app_assoc s t u : (s +:+ t) +:+ u = s +:+ (t +:+ u).
Proof. induction s as [|c s IH]; [done | by rewrite !app_cons, IH]. Qed.

Lemma length_app s t :
  String.length (s +:+ t) = String.length s + String.length t.
Proof.
  induction s as [|c s IH]; [done | rewrite app_cons; simpl; by rewrite IH].
Qed.

(** Two concatenations with heads of the same length agree part by part. *)
Lemma app_inj_length s1 s2 t1 t2 :
  String.length s1 = String.length s2 →
  s1 +:+ t1 = s2 +:+ t2 → s1 = s2 ∧ t1 = t2.
Proof.
  revert s2; induction s1 as [|c s1 IH]; intros [|d s2]; simpl; try done.
  rewrite !app_cons. intros [=Hl] [=-> Ht]. destruct (IH _ Hl Ht) as [-> ->]; done.
Qed.

Lemma mem_app c s t : Str.mem c (s +:+ t) = Str.mem c s || Str.mem c t.
Proof.
  induction s as [|a s IH]; [done |].
  rewrite app_cons; simpl; by rewrite IH, orb_assoc.
Qed.

Lemma startswith_mem c s : Str.startswith c s = true → Str.mem c s = true.
Proof. destruct s as [|a s]; simpl; [done | by intros ->]. Qed.

Lemma length_replace a b s :
  String.length (Str.replace a b s) = String.length s.
Proof. induction s as [|c s IH]; simpl; [done | by rewrite IH]. Qed.

Lemma get_replace a b s n :
  String.get n (Str.replace a b s)
  = (λ c, if bool_decide (c = a) then b else c) <$> String.get n s.
Proof. revert n; induction s as [|c s IH]; intros [|n]; simpl; auto. Qed.

(** After [replace a b] with [b ≠ a], no [a] is left. *)
Lemma mem_replace_same a b s : b ≠ a → Str.mem a (Str.replace a b s) = false.
Proof.
  intros Hne. induction s as [|c s IH]; simpl; [done |].
  rewrite IH, orb_false_r. apply bool_decide_eq_false.
  destruct (decide (c = a)) as [->|Hc].
  - by rewrite bool_decide_eq_true_2.
  - by rewrite bool_decide_eq_false_2.
Qed.

(** [replace a b] does not bring in a character [c] other than [b]. *)
Lemma mem_replace_other a b c s :
  c ≠ b → Str.mem c s = false → Str.mem c (Str.replace a b s) = false.
Proof.
  intros Hne. induction s as [|d s IH]; simpl; [done |].
  intros [Hd Hs]%orb_false_elim. rewrite (IH Hs), orb_false_r.
  destruct (bool_decide (d = a)); [| done]. apply bool_decide_eq_false. congruence.
Qed.

End StrFacts.

(** ** Time stamps *)

Module DatetimeFacts.
Import Datetime.

Lemma zpad_length w n : String.length (zpad w n) = w.
Proof.
  revert n; induction w as [|w IH]; intros n; simpl; [done |].
  rewrite StrFacts.length_app, IH. simpl. lia.
Qed.

Lemma digit_inj a b : (a < 10)%N → (b < 10)%N → digit a = digit b → a = b.
Proof.
  unfold digit. intros Ha Hb Heq.
  apply (f_equal N_of_ascii) in Heq.
  rewrite !N_ascii_embedding in Heq by lia. lia.
Qed.

Lemma zpad_inj w n m :
  (n < 10 ^ N.of_nat w)%N → (m < 10 ^ N.of_nat w)%N →
  zpad w n = zpad w m → n = m.
Proof.
  revert n m; induction w as [|w IH]; intros n m Hn Hm Heq.
  - simpl in Hn, Hm. lia.
  - rewrite Nat2N.inj_succ, N.pow_succ_r' in Hn, Hm.
    simpl in Heq.
    apply StrFacts.app_inj_length in Heq as [Hhi Hlo]; [| by rewrite !zpad_length].
    injection Hlo as Hlo.
    apply digit_inj in Hlo; [| by apply N.mod_lt | by apply N.mod_lt].
    apply IH in Hhi;
      [| apply N.Div0.div_lt_upper_bound; lia
       | apply N.Div0.div_lt_upper_bound; lia].
    rewrite (N.div_mod n 10), (N.div_mod m 10) by lia. congruence.
Qed.

Lemma zpad_mem c w n :
  Str.mem c (zpad w n) = true → ∃ d, (d < 10)%N ∧ c = digit d.
Proof.
  revert n; induction w as [|w IH]; intros n; simpl; [done |].
  rewrite StrFacts.mem_app. intros [Hhi|Hlo]%orb_true_iff; [by eapply IH |].
  simpl in Hlo. rewrite orb_false_r in Hlo. apply bool_decide_eq_true in Hlo.
  exists (n `mod` 10)%N. split; [by apply N.mod_lt | done].
Qed.

Lemma strftime_YmdHMSf_length d : String.length (strftime_YmdHMSf d) = 20.
Proof.
  unfold strftime_YmdHMSf. by rewrite !StrFacts.length_app, !zpad_length.
Qed.

(** Two well-formed instants with the same rendering are the same instant:
    the format keeps every field, down to the microsecond. *)
Lemma strftime_YmdHMSf_inj d1 d2 :
  wellformed d1 → wellformed d2 →
  strftime_YmdHMSf d1 = strftime_YmdHMSf d2 → d1 = d2.
Proof.
  destruct d1 as [y1 mo1 dd1 h1 mi1 s1 u1], d2 as [y2 mo2 dd2 h2 mi2 s2 u2].
  unfold wellformed, strftime_YmdHMSf;
    cbn [year month day hour minute second microsecond].
  intros (Hy1 & Hmo1 & Hd1 & Hh1 & Hmi1 & Hs1 & Hu1)
         (Hy2 & Hmo2 & Hd2 & Hh2 & Hmi2 & Hs2 & Hu2) Heq.
  repeat match type of Heq with
         | zpad ?w _ +:+ _ = zpad ?w _ +:+ _ =>
             apply StrFacts.app_inj_length in Heq as [?%zpad_inj Heq];
             [| simpl; lia | simpl; lia | by rewrite !zpad_length]
         end.
  apply zpad_inj in Heq; [| simpl; lia | simpl; lia].
  by subst.
Qed.

(** A character that is not a decimal digit is not in a time stamp. *)
Lemma strftime_YmdHMSf_mem c d :
  (∀ k, (k < 10)%N → c ≠ digit k) →
  Str.mem c (strftime_YmdHMSf d) = false.
Proof.
  intros Hc. apply not_true_is_false. unfold strftime_YmdHMSf.
  rewrite !StrFacts.mem_app, !orb_true_iff.
  intros H; repeat destruct H as [H|H];
    apply zpad_mem in H as (k & Hk & ->); by apply (Hc k).
Qed.

Lemma slash_not_digit k : (k < 10)%N → Str.slash ≠ digit k.
Proof.
  intros Hk Heq. apply (f_equal N_of_ascii) in Heq. unfold digit in Heq.
  rewrite N_ascii_embedding in Heq by lia. vm_compute (N_of_ascii _) in Heq. lia.
Qed.

Lemma backslash_not_digit k : (k < 10)%N → Str.backslash ≠ digit k.
Proof.
  intros Hk Heq. apply (f_equal N_of_ascii) in Heq. unfold digit in Heq.
  rewrite N_ascii_embedding in Heq by lia. vm_compute (N_of_ascii _) in Heq. lia.
Qed.

Example strftime_YmdHMSf_example :
  strftime_YmdHMSf instant_example = "20240309070501000042".
Proof. reflexivity. Qed.

End DatetimeFacts.

(** ** Paths *)

Module PosixpathFacts.
Import Posixpath.

Lemma join_relative a b :
  Str.startswith Str.slash b = false → join a b = dir_prefix a +:+ b.
Proof.
  intros Hb. unfold join, dir_prefix. rewrite Hb.
  destruct (bool_decide (a = EmptyString) || Str.endswith Str.slash a); [done |].
  by rewrite StrFacts.app_assoc.
Qed.

Example join_example : join (join "/srv/app" "uploads") "custom" = "/srv/app/uploads/custom".
Proof. reflexivity. Qed.

End PosixpathFacts.

(** ** Stored names *)

Lemma safe_name_no_slash fname : Str.mem Str.slash (safe_name fname) = false.
Proof.
  unfold safe_name. apply StrFacts.mem_replace_other; [done |].
  by apply StrFacts.mem_replace_same.
Qed.

Lemma safe_name_no_backslash fname : Str.mem Str.backslash (safe_name fname) = false.
Proof. unfold safe_name. by apply StrFacts.mem_replace_same. Qed.

(** [safe_name] changes the two separators into underscores and keeps
    every other character where it is. *)
Lemma safe_name_get fname n :
  String.get n (safe_name fname)
  = (λ c, if bool_decide (c = Str.slash ∨ c = Str.backslash)
          then Str.underscore else c) <$> String.get n fname.
Proof.
  unfold safe_name. rewrite !StrFacts.get_replace.
  destruct (String.get n fname) as [c|]; simpl; [| done]. f_equal.
  destruct (decide (c = Str.slash)) as [->|H1]; [done |].
  rewrite (bool_decide_eq_false_2 (c = Str.slash)) by done.
  destruct (decide (c = Str.backslash)) as [->|H2]; [done |].
  rewrite (bool_decide_eq_false_2 (c = Str.backslash)) by done.
  by rewrite bool_decide_eq_false_2 by (by intros [|]).
Qed.

Lemma stored_name_no_sep d fname :
  Str.mem Str.slash (stored_name (Datetime.strftime_YmdHMSf d) fname) = false
  ∧ Str.mem Str.backslash (stored_name (Datetime.strftime_YmdHMSf d) fname) = false.
Proof.
  unfold stored_name. rewrite !StrFacts.mem_app.
  rewrite (DatetimeFacts.strftime_YmdHMSf_mem _ _ DatetimeFacts.slash_not_digit).
  rewrite (DatetimeFacts.strftime_YmdHMSf_mem _ _ DatetimeFacts.backslash_not_digit).
  by rewrite safe_name_no_slash, safe_name_no_backslash.
Qed.

(** [os.path.join] keeps the stored name under [dest_dir]: the name does
    not start with a [/]. *)
Lemma out_path_eq env dest t f :
  out_path env dest t f
  = Posixpath.dir_prefix dest
    +:+ stored_name (Datetime.strftime_YmdHMSf (utcnow env t)) (filename_or_file f).
Proof.
  unfold out_path. apply PosixpathFacts.join_relative. apply not_true_is_false.
  intros H%StrFacts.startswith_mem.
  by rewrite (proj1 (stored_name_no_sep _ _)) in H.
Qed.

Lemma out_path_directly_inside env dest t f :
  directly_inside dest (out_path env dest t f).
Proof.
  eexists. split; [apply out_path_eq | apply stored_name_no_sep].
Qed.

(** Two items get the same path only when the clock showed the same
    instant for both. *)
Lemma out_path_inj env dest t1 t2 f1 f2 :
  Datetime.wellformed (utcnow env t1) → Datetime.wellformed (utcnow env t2) →
  out_path env dest t1 f1 = out_path env dest t2 f2 →
  utcnow env t1 = utcnow env t2.
Proof.
  intros Hw1 Hw2. rewrite !out_path_eq. intros Heq%(inj _).
  unfold stored_name in Heq.
  apply StrFacts.app_inj_length in Heq as [Hts _];
    [| by rewrite !DatetimeFacts.strftime_YmdHMSf_length].
  by apply DatetimeFacts.strftime_YmdHMSf_inj.
Qed.

Lemma generated_paths_length env dest t files :
  length (generated_paths env dest t files) = length files.
Proof. revert t; induction files as [|f rest IH]; intros t; simpl; auto. Qed.

Lemma generated_paths_lookup env dest t files i :
  generated_paths env dest t files !! i = out_path env dest (t + i) <$> files !! i.
Proof.
  revert t i; induction files as [|f rest IH]; intros t [|i]; simpl; try done.
  - by rewrite Nat.add_0_r.
  - rewrite IH. by replace (S t + i) with (t + S i) by lia.
Qed.

Lemma generated_paths_directly_inside env dest t files q :
  q ∈ generated_paths env dest t files → directly_inside dest q.
Proof.
  intros [i Hi]%list_elem_of_lookup. rewrite generated_paths_lookup in Hi.
  destruct (files !! i); [| done]. injection Hi as <-.
  apply out_path_directly_inside.
Qed.

(** Clock readings that are well formed and pairwise distinct give
    pairwise distinct paths. *)
Lemma generated_paths_NoDup env dest t files :
  (∀ i, i < length files → Datetime.wellformed (utcnow env (t + i))) →
  (∀ i j, i < j < length files → utcnow env (t + i) ≠ utcnow env (t + j)) →
  NoDup (generated_paths env dest t files).
Proof.
  intros Hwf Hdistinct. apply NoDup_alt. intros i j p.
  rewrite !generated_paths_lookup. intros Hi Hj.
  destruct (files !! i) as [fi|] eqn:Hfi; [| done].
  destruct (files !! j) as [fj|] eqn:Hfj; [| done].
  apply lookup_lt_Some in Hfi as Hli. apply lookup_lt_Some in Hfj as Hlj.
  simpl in Hi, Hj. injection Hi as <-. injection Hj as Hj. symmetry in Hj.
  apply out_path_inj in Hj; [| by apply Hwf | by apply Hwf].
  destruct (Nat.lt_trichotomy i j) as [Hlt|[->|Hlt]]; [| done |].
  - by destruct (Hdistinct i j).
  - by destruct (Hdistinct j i).
Qed.

(** ** What one pass of the loop does *)

(** When its three filesystem operations succeed and the source is open,
    the loop body stores the bytes left in the source under [out_path]. *)
Lemma save_one_Return env dest f w data :
  streams w !! file f = Some data →
  quiet env (ops w) (ops w + 3) →
  save_one env dest f w
  = (Return (out_path env dest (ticks w) f),
     mk_World (<[out_path env dest (ticks w) f := data]> (fs_files w))
              (fs_dirs w) (<[file f := []]> (streams w))
              (S (ticks w)) (ops w + 3)).
Proof.
  intros Hopen Hq. unfold save_one, out_path. unfold_M. simpl.
  rewrite (Hq (ops w)) by lia. simpl. rewrite Hopen.
  rewrite (Hq (S (ops w))) by lia. simpl.
  rewrite (Hq (S (S (ops w)))) by lia. simpl.
  rewrite lookup_insert_eq, insert_insert_eq. simpl.
  repeat f_equal. lia.
Qed.

(** Whatever happens in the loop body, the clock is read once, no
    directory changes, no file other than [out_path] changes, no file
    disappears and no other source is read. *)
Lemma save_one_inv env dest f w r w' :
  save_one env dest f w = (r, w') →
  ticks w' = S (ticks w)
  ∧ fs_dirs w' = fs_dirs w
  ∧ (∀ q, q ≠ out_path env dest (ticks w) f → fs_files w' !! q = fs_files w !! q)
  ∧ (∀ q, is_Some (fs_files w !! q) → is_Some (fs_files w' !! q))
  ∧ (∀ h, h ≠ file f → streams w' !! h = streams w !! h)
  ∧ (∀ p, r = Return p →
       p = out_path env dest (ticks w) f ∧ is_Some (fs_files w' !! p)).
Proof.
  unfold save_one, out_path. unfold_M. simpl.
  set (p := Posixpath.join dest _).
  assert (Hkeep : ∀ (m : gmap string bytes) (d : bytes) q,
    is_Some (m !! q) → is_Some (<[p := d]> m !! q)).
  { intros m d q Hq. destruct (decide (p = q)) as [->|Hne].
    - rewrite lookup_insert_eq. eauto.
    - by rewrite lookup_insert_ne. }
  assert (Hkeep' : ∀ (m : gmap string bytes) (d d' : bytes) q,
    is_Some (m !! q) → is_Some (<[p := d]> (<[p := d']> m) !! q)) by auto.
  destruct (fs_outcome env (ops w)) as [|k0 msg0]; simpl;
    [destruct (streams w !! file f) as [data|] eqn:Hopen; simpl;
     [destruct (fs_outcome env (S (ops w))) as [|k1 msg1]; simpl;
      [destruct (fs_outcome env (S (S (ops w)))) as [|k2 msg2]; simpl | ] | ] | ];
    intros [= <- <-]; simpl; split_and!; auto;
    try (intros q Hq; by rewrite ?lookup_insert_ne by done);
    try (intros ? [=]; fail).
  intros ? [= <-]. split; [done |]. rewrite lookup_insert_eq. eauto.
Qed.

(** ** What the loop does *)

Lemma save_loop_cons env dest f rest saved w :
  save_loop env dest (f :: rest) saved w
  = match save_one env dest f w with
    | (Return p, w1) => save_loop env dest rest (saved ++ [p]) w1
    | (Raise e, w1) => (Raise e, w1)
    end.
Proof. reflexivity. Qed.

(** The loop over [l1 ++ l2] is the loop over [l1], then, unless that
    raised, the loop over [l2]. *)
Lemma save_loop_app env dest l1 l2 saved w :
  save_loop env dest (l1 ++ l2) saved w
  = match save_loop env dest l1 saved w with
    | (Return saved', w1) => save_loop env dest l2 saved' w1
    | (Raise e, w1) => (Raise e, w1)
    end.
Proof.
  revert saved w; induction l1 as [|f l1 IH]; intros saved w; [done |].
  rewrite <- app_comm_cons, !save_loop_cons.
  destruct (save_one env dest f w) as [[p|e] w1]; [apply IH | done].
Qed.

(** Whatever happens in the loop: directories stay, only the generated
    paths change, no file disappears; and when the loop returns, it
    returns the generated paths behind [saved_paths], all of which exist. *)
Lemma save_loop_inv env dest files saved w r w' :
  save_loop env dest files saved w = (r, w') →
  fs_dirs w' = fs_dirs w
  ∧ (∀ q, q ∉ generated_paths env dest (ticks w) files →
       fs_files w' !! q = fs_files w !! q)
  ∧ (∀ q, is_Some (fs_files w !! q) → is_Some (fs_files w' !! q))
  ∧ (∀ paths, r = Return paths →
       paths = saved ++ generated_paths env dest (ticks w) files
       ∧ ticks w' = ticks w + length files
       ∧ ∀ p, p ∈ generated_paths env dest (ticks w) files →
           is_Some (fs_files w' !! p)).
Proof.
  revert saved w; induction files as [|f rest IH]; intros saved w.
  - intros [= <- <-]. split_and!; auto.
    intros paths [= <-]. rewrite app_nil_r. split_and!; [done | simpl; lia |].
    intros p Hp. by apply elem_of_nil in Hp.
  - rewrite save_loop_cons.
    destruct (save_one env dest f w) as [[p|e] w1] eqn:Hone;
      apply save_one_inv in Hone as (Ht & Hd & Hfr & Hkeep & _ & Hret).
    + intros Hrest. apply IH in Hrest as (Hd' & Hfr' & Hkeep' & Hret').
      rewrite Ht in *. destruct (Hret p eq_refl) as [-> Hp].
      split_and!.
      * congruence.
      * intros q Hq. simpl in Hq. apply not_elem_of_cons in Hq as [Hq1 Hq2].
        rewrite Hfr' by done. by apply Hfr.
      * auto.
      * intros paths ->. destruct (Hret' _ eq_refl) as (-> & Ht' & Hex).
        split_and!.
        -- by rewrite <- app_assoc.
        -- simpl. lia.
        -- simpl. intros q [->|Hq]%elem_of_cons; auto.
    + intros [= <- <-]. split_and!; auto.
      * intros q Hq. simpl in Hq. apply not_elem_of_cons in Hq as [Hq1 Hq2].
        by apply Hfr.
      * intros ? [=].
Qed.

(** When nothing fails and the items are distinct open sources, the loop
    returns, and a generated path that no later item generates again holds
    the bytes its item's source held when the loop began: the last writer
    of a path wins. *)
Lemma save_loop_Return env dest files saved w :
  NoDup (file <$> files) →
  (∀ f, f ∈ files → is_Some (streams w !! file f)) →
  quiet env (ops w) (ops w + 3 * length files) →
  ∃ w', save_loop env dest files saved w
        = (Return (saved ++ generated_paths env dest (ticks w) files), w')
      ∧ ∀ i f, files !! i = Some f →
          (∀ j, i < j → generated_paths env dest (ticks w) files !! j
                        ≠ Some (out_path env dest (ticks w + i) f)) →
          fs_files w' !! out_path env dest (ticks w + i) f = streams w !! file f.
Proof.
  revert saved w; induction files as [|f rest IH]; intros saved w Hnd Hopen Hq.
  - exists w. split; [by rewrite app_nil_r | intros i f [=]].
  - rewrite fmap_cons in Hnd. apply NoDup_cons in Hnd as [Hf Hnd].
    destruct (Hopen f) as [data Hdata]; [left |].
    rewrite save_loop_cons, (save_one_Return _ _ _ _ data Hdata)
      by (intros n Hn; apply Hq; simpl; lia).
    set (w1 := mk_World _ _ _ _ _).
    destruct (IH (saved ++ [out_path env dest (ticks w) f]) w1 Hnd)
      as (w' & Hrun & Hcontent).
    { intros g Hg. unfold w1; simpl. rewrite lookup_insert_ne; [apply Hopen; by right |].
      intros Heq. apply Hf. rewrite Heq. by apply list_elem_of_fmap_2. }
    { intros n Hn. apply Hq. unfold w1 in Hn; simpl in *. lia. }
    exists w'. split.
    + rewrite Hrun. by rewrite <- app_assoc.
    + apply save_loop_inv in Hrun as (_ & Hfr & _).
      intros [|i] g Hg Hlast; simpl in Hg.
      * injection Hg as <-. rewrite Nat.add_0_r in *.
        rewrite Hfr.
        -- unfold w1; simpl. by rewrite lookup_insert_eq.
        -- unfold w1; simpl. intros [j Hj]%list_elem_of_lookup.
           by apply (Hlast (S j)); [lia |].
      * replace (ticks w + S i) with (ticks w1 + i) in * by (unfold w1; simpl; lia).
        rewrite Hcontent; [| done |].
        -- unfold w1; simpl. rewrite lookup_insert_ne; [done |].
           intros Heq. apply Hf. rewrite Heq. apply list_elem_of_fmap_2.
           by eapply list_elem_of_lookup_2.
        -- intros j Hj. apply (Hlast (S j)). lia.
Qed.

(** ** [_save_files] *)

Lemma os_makedirs_inv env path w r w1 :
  os_makedirs env path w = (r, w1) →
  fs_files w1 = fs_files w ∧ streams w1 = streams w
  ∧ ticks w1 = ticks w ∧ ops w1 = S (ops w).
Proof.
  unfold os_makedirs. destruct (fs_outcome env (ops w)); by intros [= <- <-].
Qed.

Lemma os_makedirs_Return env path w :
  fs_outcome env (ops w) = Succeeds →
  ∃ w1, os_makedirs env path w = (Return (), w1).
Proof. intros H. unfold os_makedirs. rewrite H. eauto. Qed.

Lemma save_files_nonempty env files subdir w :
  files ≠ [] →
  _save_files env files subdir w
  = match os_makedirs env (Posixpath.join (UPLOAD_DIR env) subdir) w with
    | (Return _, w1) =>
        save_loop env (Posixpath.join (UPLOAD_DIR env) subdir) files [] w1
    | (Raise e, w1) => (Raise e, w1)
    end.
Proof. by destruct files. Qed.

(** Whatever happens in [_save_files]: only the generated paths change;
    when it returns, it returns the generated paths. *)
Lemma save_files_inv env files subdir w r w' :
  _save_files env files subdir w = (r, w') →
  (∀ q, q ∉ generated_paths env (Posixpath.join (UPLOAD_DIR env) subdir)
              (ticks w) files →
     fs_files w' !! q = fs_files w !! q)
  ∧ (∀ paths, r = Return paths →
       paths = generated_paths env (Posixpath.join (UPLOAD_DIR env) subdir)
                 (ticks w) files).
Proof.
  destruct files as [|f rest].
  { intros [= <- <-]. split; [done | by intros ? [= <-]]. }
  rewrite save_files_nonempty by done.
  destruct (os_makedirs _ _ w) as [[[]|e] w1] eqn:Hmk;
    apply os_makedirs_inv in Hmk as (Hf & _ & Ht & _).
  - intros (_ & Hfr & _ & Hret)%save_loop_inv. rewrite Ht, Hf in *.
    split; [done |]. intros paths Hp. by destruct (Hret _ Hp) as [-> _].
  - intros [= <- <-]. split; [by rewrite Hf | intros ? [=]].
Qed.

Example save_files_example :
  (_save_files env_ticking
     [mk_UploadFile (Some "../a/b.png") 0; mk_UploadFile None 1]
     "custom" world_three_uploads).1
  = Return ["/srv/app/uploads/custom/20240309070501000000_.._a_b.png";
            "/srv/app/uploads/custom/20240309070501000001_file"].
Proof. reflexivity. Qed.

(** ** Handlers and dictionaries *)

Lemma collect_batches_no_upload fields batches :
  Forall no_upload fields → collect_batches fields batches = batches.
Proof.
  intros H; revert batches; induction H as [|b rest [->| ->] _ IH]; intros batches;
    simpl; auto.
Qed.

Lemma dict_get_set_eq k v d : dict_get k (dict_set k v d) = Some v.
Proof.
  induction d as [|[k' v'] d IH]; simpl.
  - by rewrite bool_decide_eq_true_2.
  - destruct (decide (k' = k)) as [->|Hne].
    + rewrite bool_decide_eq_true_2 by done. simpl. by rewrite bool_decide_eq_true_2.
    + rewrite bool_decide_eq_false_2 by done. simpl.
      by rewrite bool_decide_eq_false_2.
Qed.

Lemma dict_get_set_ne k k' v d :
  k ≠ k' → dict_get k (dict_set k' v d) = dict_get k d.
Proof.
  intros Hne. induction d as [|[k'' v''] d IH]; simpl.
  - by rewrite bool_decide_eq_false_2.
  - destruct (decide (k'' = k')) as [->|Hne'].
    + rewrite bool_decide_eq_true_2 by done. simpl.
      by rewrite !bool_decide_eq_false_2 by done.
    + rewrite (bool_decide_eq_false_2 (k'' = k')) by done. simpl.
      by rewrite IH.
Qed.

(** * The properties *)

(** ** The persister *)

(** C1, as amended.  For a non-empty batch of distinct open sources, when
    no filesystem operation of the call fails and the generated paths are
    pairwise distinct, [_save_files] returns one path per item, in the
    order of the items; the path of item [i] is the one generated for it,
    and the file there holds exactly the bytes the item's source held at
    the time of the call. *)
Theorem save_files_round_trip env files subdir w :
  files ≠ [] →
  NoDup (file <$> files) →
  Forall (λ f, is_Some (streams w !! file f)) files →
  quiet env (ops w) (ops w + 1 + 3 * length files) →
  NoDup (generated_paths env (Posixpath.join (UPLOAD_DIR env) subdir)
           (ticks w) files) →
  ∃ paths w',
    _save_files env files subdir w = (Return paths, w')
    ∧ length paths = length files
    ∧ ∀ i f, files !! i = Some f →
        ∃ p data,
          paths !! i = Some p
          ∧ p = out_path env (Posixpath.join (UPLOAD_DIR env) subdir)
                  (ticks w + i) f
          ∧ streams w !! file f = Some data
          ∧ fs_files w' !! p = Some data.
Proof.
  intros Hne Hnd Hopen Hq Hpaths.
  rewrite Forall_forall in Hopen.
  rewrite save_files_nonempty by done.
  destruct (os_makedirs_Return env (Posixpath.join (UPLOAD_DIR env) subdir) w)
    as [w1 Hmk]; [apply Hq; lia |].
  rewrite Hmk. apply os_makedirs_inv in Hmk as (Hf & Hs & Ht & Ho).
  destruct (save_loop_Return env (Posixpath.join (UPLOAD_DIR env) subdir)
              files [] w1 Hnd) as (w' & Hrun & Hcontent).
  { intros f Hf'. rewrite Hs. by apply Hopen. }
  { intros n Hn. apply Hq. lia. }
  rewrite Ht, Hs in *. simpl in Hrun.
  eexists _, w'. split; [exact Hrun |].
  split; [apply generated_paths_length |].
  intros i f Hi.
  destruct (Hopen f) as [data Hdata]; [by eapply list_elem_of_lookup_2 |].
  exists (out_path env (Posixpath.join (UPLOAD_DIR env) subdir) (ticks w + i) f), data.
  split_and!; [| done | done |].
  - by rewrite generated_paths_lookup, Hi.
  - rewrite <- Hdata. apply Hcontent; [done |].
    intros j Hj Hdup. pose proof (proj1 (NoDup_alt _) Hpaths) as Halt.
    assert (j = i); [| lia].
    apply (Halt j i _ Hdup). by rewrite generated_paths_lookup, Hi.
Qed.

Lemma save_files_round_trip_witness :
  ∃ paths w',
    _save_files env_ticking two_same_name "custom" world_three_uploads
    = (Return paths, w')
    ∧ length paths = 2
    ∧ paths !! 0 = Some "/srv/app/uploads/custom/20240309070501000000_a.png"
    ∧ fs_files w' !! "/srv/app/uploads/custom/20240309070501000000_a.png"
      = Some [Byte.x01].
Proof.
  destruct (save_files_round_trip env_ticking two_same_name "custom"
              world_three_uploads) as (paths & w' & Hrun & Hlen & Hitems).
  - done.
  - apply (bool_decide_unpack _). by vm_compute.
  - repeat constructor; vm_compute; eauto.
  - intros n _. reflexivity.
  - apply (bool_decide_unpack _). by vm_compute.
  - destruct (Hitems 0 (mk_UploadFile (Some "a.png") 0) eq_refl)
      as (p & data & Hp & -> & Hdata & Hfile).
    injection Hdata as <-.
    exists paths, w'. split_and!; [exact Hrun | exact Hlen | exact Hp | exact Hfile].
Defined.

(** With a clock that shows the same microsecond twice, two items of the
    same name share one path, and the first returned path holds the
    second item's bytes. *)
Example frozen_clock_overwrites :
  (_save_files env_frozen two_same_name "custom" world_three_uploads).1
  = Return ["/srv/app/uploads/custom/20240309070501000042_a.png";
            "/srv/app/uploads/custom/20240309070501000042_a.png"]
  ∧ fs_files (_save_files env_frozen two_same_name "custom" world_three_uploads).2
      !! "/srv/app/uploads/custom/20240309070501000042_a.png"
    = Some [Byte.x02]
  ∧ streams world_three_uploads !! 0 = Some [Byte.x01].
Proof. by vm_compute. Qed.

Lemma round_trip_counterexample : ¬ round_trip_claim.
Proof.
  intros H.
  destruct (H env_frozen two_same_name "custom" world_three_uploads)
    as (paths & w' & Hrun & _ & Hc).
  - done.
  - apply (bool_decide_unpack _). by vm_compute.
  - repeat constructor; vm_compute; eauto.
  - done.
  - destruct (Hc 0 (mk_UploadFile (Some "a.png") 0) eq_refl) as (p & Hp & Hcontent).
    destruct frozen_clock_overwrites as (Hpaths & Hfile & Hsource).
    rewrite Hrun in Hpaths, Hfile. simpl in Hpaths, Hfile. cbn [file] in Hcontent.
    injection Hpaths as ->. injection Hp as <-.
    rewrite Hfile, Hsource in Hcontent. discriminate.
Qed.

(** C2.  [safe_name] turns every [/] and every backslash of the client's
    filename into an underscore and keeps the other characters in place;
    so every file that a call to [_save_files] creates or changes, and
    every path it returns, is the destination directory followed by a
    name without any separator: a file in [root/subdir] itself. *)
Theorem save_files_stays_in_dest_dir env files subdir w :
  (∀ fname n,
     Str.mem Str.slash (safe_name fname) = false
     ∧ Str.mem Str.backslash (safe_name fname) = false
     ∧ String.get n (safe_name fname)
       = (λ c, if bool_decide (c = Str.slash ∨ c = Str.backslash)
               then Str.underscore else c) <$> String.get n fname)
  ∧ (∀ q, fs_files (_save_files env files subdir w).2 !! q ≠ fs_files w !! q →
       directly_inside (Posixpath.join (UPLOAD_DIR env) subdir) q)
  ∧ (∀ paths, (_save_files env files subdir w).1 = Return paths →
       Forall (directly_inside (Posixpath.join (UPLOAD_DIR env) subdir)) paths).
Proof.
  destruct (_save_files env files subdir w) as [r w'] eqn:Hrun.
  apply save_files_inv in Hrun as [Hfr Hret]. simpl.
  split_and!.
  - intros fname n. split_and!;
      [apply safe_name_no_slash | apply safe_name_no_backslash | apply safe_name_get].
  - intros q Hq.
    destruct (decide (q ∈ generated_paths env (Posixpath.join (UPLOAD_DIR env) subdir)
                            (ticks w) files)) as [Hin|Hout].
    + by eapply generated_paths_directly_inside.
    + by destruct (Hq (Hfr q Hout)).
  - intros paths ->. apply Forall_forall. intros q Hq.
    rewrite (Hret _ eq_refl) in Hq. by eapply generated_paths_directly_inside.
Qed.

(** C3, as amended.  When the instants the clock shows for the items of
    a call are well formed and pairwise distinct, the paths generated in
    the call are pairwise distinct, and so are the paths it returns. *)
Theorem save_files_distinct_names env files subdir w :
  (∀ i, i < length files → Datetime.wellformed (utcnow env (ticks w + i))) →
  (∀ i j, i < j < length files →
     utcnow env (ticks w + i) ≠ utcnow env (ticks w + j)) →
  NoDup (generated_paths env (Posixpath.join (UPLOAD_DIR env) subdir)
           (ticks w) files)
  ∧ ∀ paths w',
      _save_files env files subdir w = (Return paths, w') → NoDup paths.
Proof.
  intros Hwf Hd.
  assert (Hnd := generated_paths_NoDup env (Posixpath.join (UPLOAD_DIR env) subdir)
                   (ticks w) files Hwf Hd).
  split; [done |]. intros paths w' Hrun.
  apply save_files_inv in Hrun as [_ Hret]. by rewrite (Hret _ eq_refl).
Qed.

Lemma save_files_distinct_names_witness :
  NoDup (generated_paths env_ticking
           (Posixpath.join (UPLOAD_DIR env_ticking) "custom") 0 two_same_name)
  ∧ ∀ paths w',
      _save_files env_ticking two_same_name "custom" world_three_uploads
      = (Return paths, w') → NoDup paths.
Proof.
  apply (save_files_distinct_names env_ticking two_same_name "custom"
           world_three_uploads).
  - intros i Hi. unfold Datetime.wellformed. simpl in *. lia.
  - intros i j Hij [=]. lia.
Defined.

Lemma distinct_names_counterexample : ¬ distinct_names_claim.
Proof.
  intros H.
  specialize (H env_frozen two_same_name "custom" world_three_uploads _
                (le_n 2) (proj1 frozen_clock_overwrites)).
  apply NoDup_cons in H as [Hin _]. apply Hin. left.
Qed.

(** C4.  On the empty list [_save_files] returns the empty list and
    leaves the world as it was: no file, no directory, no clock reading,
    no filesystem operation. *)
Theorem save_files_empty env subdir w :
  _save_files env [] subdir w = (Return [], w).
Proof. reflexivity. Qed.

(** C5.  When the loop has stored the items [pre] and the pass for the
    next item [x] raises, [_save_files] raises the same exception for the
    whole batch [pre ++ x :: post]; the world is left as the failing pass
    left it, so nothing of [post] is read or written; every path stored
    for [pre] is still a file; and apart from the path of [x] itself every
    file holds what it held before the failing pass. *)
Theorem save_files_failure_no_rollback
    env pre x post subdir w w1 paths w2 e w3 :
  os_makedirs env (Posixpath.join (UPLOAD_DIR env) subdir) w = (Return (), w1) →
  save_loop env (Posixpath.join (UPLOAD_DIR env) subdir) pre [] w1
  = (Return paths, w2) →
  save_one env (Posixpath.join (UPLOAD_DIR env) subdir) x w2 = (Raise e, w3) →
  _save_files env (pre ++ x :: post) subdir w = (Raise e, w3)
  ∧ length paths = length pre
  ∧ Forall (λ p, is_Some (fs_files w3 !! p)) paths
  ∧ (∀ q, q ≠ out_path env (Posixpath.join (UPLOAD_DIR env) subdir) (ticks w2) x →
       fs_files w3 !! q = fs_files w2 !! q)
  ∧ (∀ h, h ≠ file x → streams w3 !! h = streams w2 !! h).
Proof.
  intros Hmk Hpre Hone.
  split_and!.
  - rewrite save_files_nonempty by (by destruct pre).
    by rewrite Hmk, save_loop_app, Hpre, save_loop_cons, Hone.
  - apply save_loop_inv in Hpre as (_ & _ & _ & Hret).
    destruct (Hret _ eq_refl) as (-> & _ & _). simpl. apply generated_paths_length.
  - apply save_loop_inv in Hpre as (_ & _ & _ & Hret).
    destruct (Hret _ eq_refl) as (-> & _ & Hex). simpl.
    apply save_one_inv in Hone as (_ & _ & _ & Hkeep & _).
    apply Forall_forall. intros p Hp. by apply Hkeep, Hex.
  - by apply save_one_inv in Hone as (_ & _ & Hfr & _).
  - by apply save_one_inv in Hone as (_ & _ & _ & _ & Hs & _).
Qed.

Lemma save_files_failure_no_rollback_witness :
  _save_files (env_failing_at 6)
    ([mk_UploadFile (Some "a.png") 0]
     ++ mk_UploadFile (Some "b.png") 1 :: [mk_UploadFile (Some "c.png") 2])
    "custom" world_three_uploads
  = (Raise (OSError "No space left on device"), world_after_failure)
  ∧ Forall (λ p, is_Some (fs_files world_after_failure !! p))
      ["/srv/app/uploads/custom/20240309070501000000_a.png"].
Proof.
  destruct (save_files_failure_no_rollback (env_failing_at 6)
              [mk_UploadFile (Some "a.png") 0]
              (mk_UploadFile (Some "b.png") 1)
              [mk_UploadFile (Some "c.png") 2]
              "custom" world_three_uploads
              world_after_makedirs
              ["/srv/app/uploads/custom/20240309070501000000_a.png"]
              world_after_first
              (OSError "No space left on device")
              world_after_failure)
    as (Hrun & _ & Hall & _); [vm_compute; reflexivity .. |].
  split; [exact Hrun | exact Hall].
Defined.

(** What is on disk after that failed call: the first file whole, the
    second one empty, nothing for the third, whose source is unread. *)
Example disk_full_on_second_item :
  map_to_list (fs_files
    (_save_files (env_failing_at 6)
       [mk_UploadFile (Some "a.png") 0; mk_UploadFile (Some "b.png") 1;
        mk_UploadFile (Some "c.png") 2]
       "custom" world_three_uploads).2)
  = [("/srv/app/uploads/custom/20240309070501000001_b.png", []);
     ("/srv/app/uploads/custom/20240309070501000000_a.png", [Byte.x01])]
  ∧ streams
      (_save_files (env_failing_at 6)
         [mk_UploadFile (Some "a.png") 0; mk_UploadFile (Some "b.png") 1;
          mk_UploadFile (Some "c.png") 2]
         "custom" world_three_uploads).2 !! 2
    = Some [Byte.x03].
Proof. by vm_compute. Qed.

(** ** The form handlers *)

(** C6.  When each of the four file fields is absent or empty, the
    handler raises [HTTPException(422, "Nenhum ficheiro enviado")] and
    leaves the world as it was, whatever the persister is: it is not
    called and no file is stored.  The client gets status 422 with that
    detail. *)
Theorem submit_plan_without_files env plan max_photos brand email products
    files_0 files_1 files_2 files_3 w :
  no_upload files_0 → no_upload files_1 →
  no_upload files_2 → no_upload files_3 →
  (∀ persist,
     submit_plan_with env persist plan max_photos brand email products
       files_0 files_1 files_2 files_3 w
     = (Raise (mk_HTTPException 422 "Nenhum ficheiro enviado"), w))
  ∧ submit_plan env plan max_photos brand email products
      files_0 files_1 files_2 files_3 w
    = (Raise (mk_HTTPException 422 "Nenhum ficheiro enviado"), w)
  ∧ http_reply
      (submit_plan env plan max_photos brand email products
         files_0 files_1 files_2 files_3 w).1
    = (422, JDict [("detail", JStr "Nenhum ficheiro enviado")]).
Proof.
  intros H0 H1 H2 H3.
  assert (Hwith : ∀ persist,
     submit_plan_with env persist plan max_photos brand email products
       files_0 files_1 files_2 files_3 w
     = (Raise (mk_HTTPException 422 "Nenhum ficheiro enviado"), w)).
  { intros persist. unfold submit_plan_with.
    rewrite collect_batches_no_upload
      by (repeat (apply Forall_cons_2; [assumption |]); apply Forall_nil_2).
    done. }
  split_and!; [done | apply Hwith | unfold submit_plan; by rewrite Hwith].
Qed.

Lemma submit_plan_without_files_witness :
  submit_plan env_ticking "A" 5 "X" "a@b.com" None
    NoFiles (FileList []) NoFiles NoFiles world_three_uploads
  = (Raise (mk_HTTPException 422 "Nenhum ficheiro enviado"), world_three_uploads).
Proof.
  apply (submit_plan_without_files env_ticking "A" 5 "X" "a@b.com" None
           NoFiles (FileList []) NoFiles NoFiles world_three_uploads);
    [by left | by right | by left | by left].
Defined.

(** With one file in [files_0] the handler stores it and answers 200
    with [saved_count] 1. *)
Example submit_plan_one_file :
  http_reply
    (submit_plan env_ticking "A" 5 "X" "a@b.com" None
       (FileList [mk_UploadFile (Some "p.png") 0]) NoFiles NoFiles NoFiles
       world_three_uploads).1
  = (200,
     JDict [("ok", JBool true); ("message", JStr "Recebido");
            ("data", JDict [("plan", JStr "A"); ("max_photos", JInt 5);
                            ("brand", JStr "X"); ("email", JStr "a@b.com");
                            ("products", JNone); ("saved_count", JInt 1)])])
  ∧ map_to_list (fs_files
      (submit_plan env_ticking "A" 5 "X" "a@b.com" None
         (FileList [mk_UploadFile (Some "p.png") 0]) NoFiles NoFiles NoFiles
         world_three_uploads).2)
    = [("/srv/app/uploads/plan_A_20240309/20240309070501000001_p.png",
        [Byte.x01])].
Proof. by vm_compute. Qed.

(** C7.  Without a reference file the handler returns status 200 with
    [ok] true and [saved_count] 0, and the world is as it was; this is so
    whatever the persister is, which is how "the persister is never
    called" reads here. *)
Theorem custom_request_without_reference env description brand email w :
  (∀ persist,
     custom_request_with persist description brand email None w
     = (Return (mk_JSONResponse 200
          (JDict [("ok", JBool true);
                  ("message", JStr "Pedido recebido");
                  ("data", JDict [("description", JStr description);
                                  ("brand", JStr brand);
                                  ("email", JStr email);
                                  ("saved_count", JInt 0)])])), w))
  ∧ (custom_request env description brand email None w).2 = w
  ∧ http_reply (custom_request env description brand email None w).1
    = (200,
       JDict [("ok", JBool true);
              ("message", JStr "Pedido recebido");
              ("data", JDict [("description", JStr description);
                              ("brand", JStr brand);
                              ("email", JStr email);
                              ("saved_count", JInt 0)])]).
Proof. done. Qed.

(** ** The diagnostics endpoint *)

(** C8.  When the database module cannot be imported and neither
    variable is set, the [database] field contains
    "Database module not found" and both environment fields are
    "❌ Not Set". *)
Theorem test_database_without_module p :
  import_database p = ModuleNotFound →
  getenv p "DATABASE_URL" = None →
  getenv p "DATABASE_NAME" = None →
  (∃ s, dict_get "database" (test_database p) = Some (JStr s)
        ∧ Str.contains "Database module not found" s = true)
  ∧ dict_get "database_url" (test_database p) = Some (JStr "❌ Not Set")
  ∧ dict_get "database_name" (test_database p) = Some (JStr "❌ Not Set").
Proof.
  intros Himp Hurl Hname. unfold test_database, getenv_truthy.
  rewrite Himp, Hurl, Hname. split_and!; [| done | done].
  eexists. split; [reflexivity | by vm_compute].
Qed.

Lemma test_database_without_module_witness :
  (∃ s, dict_get "database" (test_database probe_bare) = Some (JStr s)
        ∧ Str.contains "Database module not found" s = true)
  ∧ dict_get "database_url" (test_database probe_bare) = Some (JStr "❌ Not Set")
  ∧ dict_get "database_name" (test_database probe_bare) = Some (JStr "❌ Not Set").
Proof.
  apply (test_database_without_module probe_bare); reflexivity.
Defined.

(** C10, as amended.  Whatever the probe of the database found or
    wrote, the two environment fields of the response are "✅ Set" or
    "❌ Not Set", the first exactly when [os.getenv] gives a non-empty
    string for the variable. *)
Theorem test_database_env_fields p :
  dict_get "database_url" (test_database p)
  = Some (JStr (if getenv_truthy p "DATABASE_URL" then "✅ Set" else "❌ Not Set"))
  ∧ dict_get "database_name" (test_database p)
    = Some (JStr (if getenv_truthy p "DATABASE_NAME"
                  then "✅ Set" else "❌ Not Set")).
Proof.
  unfold test_database. split.
  - rewrite dict_get_set_ne by done. apply dict_get_set_eq.
  - apply dict_get_set_eq.
Qed.

(** A handle that is there, named and working leaves no trace in the two
    fields. *)
Example test_database_probe_overwritten :
  test_database
    (mk_Probe
       (Imported (Some (mk_Database (HasValue (JStr "shop"))
                          (Return ["users"; "orders"]))))
       (λ _, None))
  = [("backend", JStr "✅ Running");
     ("database", JStr "✅ Connected & Working");
     ("database_url", JStr "❌ Not Set");
     ("database_name", JStr "❌ Not Set");
     ("connection_status", JStr "Connected");
     ("collections", JList [JStr "users"; JStr "orders"])].
Proof. reflexivity. Qed.

Lemma env_fields_counterexample : ¬ env_fields_claim.
Proof.
  intros H. destruct (H probe_empty_url) as [Hurl _].
  vm_compute in Hurl. discriminate.
Qed.

(** * Further properties *)

(** ** The persister: sources, collisions, directories *)

Lemma os_makedirs_dirs env path w r w1 :
  os_makedirs env path w = (r, w1) →
  fs_dirs w ⊆ fs_dirs w1
  ∧ (r = Return () → fs_dirs w1 = list_to_set (makedirs_chain path) ∪ fs_dirs w).
Proof.
  unfold os_makedirs. destruct (fs_outcome env (ops w)); intros [= <- <-]; simpl;
    (split; [set_solver | done]).
Qed.

Lemma makedirs_chain_self path : path ∈ makedirs_chain path.
Proof. unfold makedirs_chain. apply elem_of_app. right. by left. Qed.

(** In any outcome the loop leaves alone the sources of other items. *)
Lemma save_loop_streams env dest files saved w r w' h :
  save_loop env dest files saved w = (r, w') →
  h ∉ file <$> files → streams w' !! h = streams w !! h.
Proof.
  revert saved w; induction files as [|f rest IH]; intros saved w.
  - by intros [= <- <-].
  - rewrite save_loop_cons, fmap_cons. intros Hrun [Hh Hrest]%not_elem_of_cons.
    destruct (save_one env dest f w) as [[p|e] w1] eqn:Hone;
      apply save_one_inv in Hone as (_ & _ & _ & _ & Hs & _).
    + rewrite (IH _ _ Hrun Hrest). by apply Hs.
    + injection Hrun as <- <-. by apply Hs.
Qed.

(** When nothing fails and every source is open, the loop returns,
    whether or not two items share a source or a path.  Every source of
    the batch is then at its end, and a path that no later item generates
    again holds what its item read. *)
Lemma save_loop_reads env dest files saved w :
  (∀ f, f ∈ files → is_Some (streams w !! file f)) →
  quiet env (ops w) (ops w + 3 * length files) →
  ∃ w', save_loop env dest files saved w
        = (Return (saved ++ generated_paths env dest (ticks w) files), w')
      ∧ (∀ h, streams w' !! h
              = if bool_decide (h ∈ file <$> files) then Some []
                else streams w !! h)
      ∧ ∀ i f, files !! i = Some f →
          (∀ j, i < j → generated_paths env dest (ticks w) files !! j
                        ≠ Some (out_path env dest (ticks w + i) f)) →
          fs_files w' !! out_path env dest (ticks w + i) f
          = Some (bytes_read w files i f).
Proof.
  revert saved w; induction files as [|f rest IH]; intros saved w Hopen Hq.
  - exists w. split_and!; [by rewrite app_nil_r | done | intros i f [=]].
  - destruct (Hopen f) as [data Hdata]; [left |].
    rewrite save_loop_cons, (save_one_Return _ _ _ _ data Hdata)
      by (intros n Hn; apply Hq; simpl; lia).
    set (w1 := mk_World _ _ _ _ _).
    assert (Hs1 : ∀ h, streams w1 !! h
                       = if bool_decide (h = file f) then Some []
                         else streams w !! h).
    { intros h. unfold w1; simpl. case_bool_decide as Hh.
      - subst h. by rewrite lookup_insert_eq.
      - by rewrite lookup_insert_ne. }
    destruct (IH (saved ++ [out_path env dest (ticks w) f]) w1)
      as (w' & Hrun & Hstreams & Hcontent).
    { intros g Hg. rewrite Hs1. case_bool_decide; [eauto | apply Hopen; by right]. }
    { intros n Hn. apply Hq. unfold w1 in Hn; simpl in *. lia. }
    exists w'. split_and!.
    + rewrite Hrun. by rewrite <- app_assoc.
    + intros h. rewrite Hstreams, Hs1, fmap_cons.
      destruct (decide (h = file f)) as [->|Hne].
      * rewrite (bool_decide_eq_true_2 (file f ∈ file f :: _)) by left.
        by repeat case_bool_decide.
      * rewrite (bool_decide_eq_false_2 (h = file f)) by done.
        rewrite (bool_decide_ext (h ∈ file f :: (file <$> rest))
                   (h ∈ file <$> rest)); [done |].
        rewrite elem_of_cons. split; [by intros [?|?] | by right].
    + apply save_loop_inv in Hrun as (_ & Hfr & _).
      intros [|i] g Hg Hlast; simpl in Hg.
      * injection Hg as <-. rewrite Nat.add_0_r in *.
        rewrite Hfr.
        -- unfold w1, bytes_read; simpl. rewrite lookup_insert_eq.
           by rewrite Hdata.
        -- unfold w1; simpl. intros [j Hj]%list_elem_of_lookup.
           by apply (Hlast (S j)); [lia |].
      * replace (ticks w + S i) with (ticks w1 + i) in * by (unfold w1; simpl; lia).
        rewrite Hcontent; [| done | intros j Hj; apply (Hlast (S j)); lia].
        f_equal. unfold bytes_read. rewrite Hs1.
        change (take (S i) (f :: rest)) with (f :: take i rest). rewrite fmap_cons.
        destruct (decide (file g = file f)) as [Heq|Hne].
        -- rewrite (bool_decide_eq_true_2 (file g = file f)) by done.
           rewrite (bool_decide_eq_true_2 (file g ∈ file f :: _))
             by (rewrite Heq; left).
           by case_bool_decide.
        -- rewrite (bool_decide_eq_false_2 (file g = file f)) by done.
           rewrite (bool_decide_ext (file g ∈ file f :: (file <$> take i rest))
                      (file g ∈ file <$> take i rest)); [done |].
           rewrite elem_of_cons. split; [by intros [?|?] | by right].
Qed.

(** The same for [_save_files] on a non-empty batch, with the directory. *)
Lemma save_files_reads env files subdir w :
  files ≠ [] →
  (∀ f, f ∈ files → is_Some (streams w !! file f)) →
  quiet env (ops w) (ops w + 1 + 3 * length files) →
  ∃ w', _save_files env files subdir w
        = (Return (generated_paths env (Posixpath.join (UPLOAD_DIR env) subdir)
                     (ticks w) files), w')
      ∧ fs_dirs w'
        = list_to_set (makedirs_chain (Posixpath.join (UPLOAD_DIR env) subdir))
          ∪ fs_dirs w
      ∧ (∀ h, streams w' !! h
              = if bool_decide (h ∈ file <$> files) then Some []
                else streams w !! h)
      ∧ ∀ i f, files !! i = Some f →
          (∀ j, i < j →
             generated_paths env (Posixpath.join (UPLOAD_DIR env) subdir)
               (ticks w) files !! j
             ≠ Some (out_path env (Posixpath.join (UPLOAD_DIR env) subdir)
                       (ticks w + i) f)) →
          fs_files w' !! out_path env (Posixpath.join (UPLOAD_DIR env) subdir)
                           (ticks w + i) f
          = Some (bytes_read w files i f).
Proof.
  intros Hne Hopen Hq. rewrite save_files_nonempty by done.
  destruct (os_makedirs_Return env (Posixpath.join (UPLOAD_DIR env) subdir) w)
    as [w1 Hmk]; [apply Hq; lia |].
  rewrite Hmk.
  destruct (os_makedirs_dirs _ _ _ _ _ Hmk) as [_ Hdirs].
  apply os_makedirs_inv in Hmk as (Hf & Hs & Ht & Ho).
  destruct (save_loop_reads env (Posixpath.join (UPLOAD_DIR env) subdir)
              files [] w1) as (w' & Hrun & Hstreams & Hcontent).
  { intros f Hf'. rewrite Hs. by apply Hopen. }
  { intros n Hn. apply Hq. lia. }
  exists w'. rewrite Ht, Hs in *. split_and!.
  - exact Hrun.
  - apply save_loop_inv in Hrun as (-> & _). by apply Hdirs.
  - exact Hstreams.
  - intros i f Hi Hlast. rewrite (Hcontent i f Hi Hlast).
    unfold bytes_read. by rewrite Hs.
Qed.

Lemma save_files_Return_exist env files subdir w paths w' :
  _save_files env files subdir w = (Return paths, w') →
  Forall (λ p, is_Some (fs_files w' !! p)) paths.
Proof.
  destruct files as [|f rest]; [by intros [= <- <-] |].
  rewrite save_files_nonempty by done.
  destruct (os_makedirs _ _ w) as [[[]|e] w1]; [| done].
  intros Hrun. apply save_loop_inv in Hrun as (_ & _ & _ & Hret).
  destruct (Hret _ eq_refl) as (-> & _ & Hex). by apply Forall_forall.
Qed.

(** X1.  A batch is stored even when two of its items share a source or
    a path: if every source is open and no filesystem operation of the
    call fails, [_save_files] returns one path per item, in order.  An
    item whose source no earlier item of the batch has read, and whose
    path no later item generates again, is stored whole: the last writer
    of a path is the one whose bytes stay. *)
Theorem save_files_last_writer_wins env files subdir w :
  files ≠ [] →
  Forall (λ f, is_Some (streams w !! file f)) files →
  quiet env (ops w) (ops w + 1 + 3 * length files) →
  ∃ paths w',
    _save_files env files subdir w = (Return paths, w')
    ∧ length paths = length files
    ∧ ∀ i f, files !! i = Some f →
        paths !! i = Some (out_path env (Posixpath.join (UPLOAD_DIR env) subdir)
                             (ticks w + i) f)
        ∧ ((∀ j, i < j → paths !! j ≠ paths !! i) →
           file f ∉ file <$> take i files →
           fs_files w' !! out_path env (Posixpath.join (UPLOAD_DIR env) subdir)
                            (ticks w + i) f
           = streams w !! file f).
Proof.
  intros Hne Hopen Hq. rewrite Forall_forall in Hopen.
  destruct (save_files_reads env files subdir w Hne Hopen Hq)
    as (w' & Hrun & _ & _ & Hcontent).
  eexists _, w'. split; [exact Hrun |].
  split; [apply generated_paths_length |].
  intros i f Hi.
  assert (Hp : generated_paths env (Posixpath.join (UPLOAD_DIR env) subdir)
                 (ticks w) files !! i
               = Some (out_path env (Posixpath.join (UPLOAD_DIR env) subdir)
                         (ticks w + i) f))
    by (by rewrite generated_paths_lookup, Hi).
  split; [exact Hp |]. intros Hlast Hfirst.
  rewrite Hcontent; [| done | intros j Hj; rewrite <- Hp; by apply Hlast].
  unfold bytes_read. rewrite bool_decide_eq_false_2 by done.
  destruct (Hopen f) as [data ->]; [by eapply list_elem_of_lookup_2 | done].
Qed.

Lemma save_files_last_writer_wins_witness :
  ∃ paths w',
    _save_files env_frozen two_same_name "custom" world_three_uploads
    = (Return paths, w')
    ∧ length paths = 2
    ∧ fs_files w' !! "/srv/app/uploads/custom/20240309070501000042_a.png"
      = Some [Byte.x02].
Proof.
  destruct (save_files_last_writer_wins env_frozen two_same_name "custom"
              world_three_uploads) as (paths & w' & Hrun & Hlen & Hitems).
  - done.
  - repeat constructor; vm_compute; eauto.
  - intros n _. reflexivity.
  - destruct (Hitems 0 (mk_UploadFile (Some "a.png") 0) eq_refl) as [Hp0 _].
    destruct (Hitems 1 (mk_UploadFile (Some "a.png") 1) eq_refl) as [Hp1 Hfile].
    exists paths, w'. split_and!; [exact Hrun | exact Hlen |].
    transitivity (streams world_three_uploads !! 1); [| by vm_compute].
    apply Hfile.
    + intros j Hj. rewrite Hp1. simpl in Hlen.
      rewrite (lookup_ge_None_2 paths j) by lia. done.
    + apply (bool_decide_unpack _). by vm_compute.
Defined.

(** X2.  A source is read to its end by the first item that uses it: an
    item of the batch whose source an earlier item has already read
    stores an empty file (when no later item takes the same path). *)
Theorem save_files_source_read_once env files subdir w i k f g :
  Forall (λ f, is_Some (streams w !! file f)) files →
  quiet env (ops w) (ops w + 1 + 3 * length files) →
  files !! k = Some g → files !! i = Some f → k < i → file g = file f →
  (∀ j, i < j →
     generated_paths env (Posixpath.join (UPLOAD_DIR env) subdir) (ticks w) files !! j
     ≠ Some (out_path env (Posixpath.join (UPLOAD_DIR env) subdir) (ticks w + i) f)) →
  ∃ paths w',
    _save_files env files subdir w = (Return paths, w')
    ∧ fs_files w' !! out_path env (Posixpath.join (UPLOAD_DIR env) subdir)
                       (ticks w + i) f
      = Some [].
Proof.
  intros Hopen Hq Hk Hi Hki Hsame Hlast. rewrite Forall_forall in Hopen.
  assert (Hne : files ≠ []) by (by destruct files).
  destruct (save_files_reads env files subdir w Hne Hopen Hq)
    as (w' & Hrun & _ & _ & Hcontent).
  eexists _, w'. split; [exact Hrun |].
  rewrite (Hcontent i f Hi Hlast). unfold bytes_read.
  rewrite bool_decide_eq_true_2; [done |].
  rewrite <- Hsame. apply list_elem_of_fmap_2, list_elem_of_lookup.
  exists k. rewrite lookup_take_lt by done. done.
Qed.

Lemma save_files_source_read_once_witness :
  ∃ paths w',
    _save_files env_ticking same_source_twice "custom" world_three_uploads
    = (Return paths, w')
    ∧ fs_files w' !! "/srv/app/uploads/custom/20240309070501000001_b.png"
      = Some [].
Proof.
  apply (save_files_source_read_once env_ticking same_source_twice "custom"
           world_three_uploads 1 0
           (mk_UploadFile (Some "b.png") 0) (mk_UploadFile (Some "a.png") 0)).
  - repeat constructor; vm_compute; eauto.
  - intros n _. reflexivity.
  - reflexivity.
  - reflexivity.
  - lia.
  - reflexivity.
  - intros j Hj. rewrite (lookup_ge_None_2 _ j); [done |].
    rewrite generated_paths_length. simpl. lia.
Defined.

Lemma save_one_stream env dest f w p w1 data :
  streams w !! file f = Some data →
  save_one env dest f w = (Return p, w1) →
  ∀ h, streams w1 !! h
       = if bool_decide (h = file f) then Some [] else streams w !! h.
Proof.
  intros Hdata Hone h. case_bool_decide as Hh.
  - subst h. revert Hone. unfold save_one. unfold_M. simpl.
    destruct (fs_outcome env (ops w)); simpl; [| done]. rewrite Hdata.
    destruct (fs_outcome env (S (ops w))); simpl; [| done].
    destruct (fs_outcome env (S (S (ops w)))); simpl; [| done].
    intros [= <- <-]. simpl. by rewrite lookup_insert_eq.
  - by apply save_one_inv in Hone as (_ & _ & _ & _ & Hs & _); apply Hs.
Qed.

Lemma save_loop_consumed env dest files saved w paths w' :
  Forall (λ f, is_Some (streams w !! file f)) files →
  save_loop env dest files saved w = (Return paths, w') →
  ∀ h, streams w' !! h
       = if bool_decide (h ∈ file <$> files) then Some [] else streams w !! h.
Proof.
  revert saved w; induction files as [|f rest IH]; intros saved w Hopen.
  { intros [= <- <-] h. by rewrite bool_decide_eq_false_2 by apply not_elem_of_nil. }
  apply Forall_cons in Hopen as [[data Hdata] Hopen].
  rewrite save_loop_cons.
  destruct (save_one env dest f w) as [[p|e] w1] eqn:Hone; [| done].
  intros Hrun h.
  pose proof (save_one_stream _ _ _ _ _ _ _ Hdata Hone) as Hs1.
  rewrite (IH (saved ++ [p]) w1); [| | exact Hrun].
  - rewrite Hs1, fmap_cons.
    destruct (decide (h = file f)) as [->|Hne].
    + rewrite (bool_decide_eq_true_2 (file f ∈ file f :: _)) by left.
      by repeat case_bool_decide.
    + rewrite (bool_decide_eq_false_2 (h = file f)) by done.
      rewrite (bool_decide_ext (h ∈ file f :: (file <$> rest))
                 (h ∈ file <$> rest)); [done |].
      rewrite elem_of_cons. split; [by intros [?|?] | by right].
  - eapply Forall_impl; [exact Hopen |]. intros g Hg. simpl in Hg.
    rewrite Hs1. case_bool_decide; eauto.
Qed.

(** X3.  After a call that returns, every source of the batch is at its
    end and every other source holds what it held. *)
Theorem save_files_sources_consumed env files subdir w paths w' :
  Forall (λ f, is_Some (streams w !! file f)) files →
  _save_files env files subdir w = (Return paths, w') →
  ∀ h, streams w' !! h
       = if bool_decide (h ∈ file <$> files) then Some [] else streams w !! h.
Proof.
  intros Hopen. destruct files as [|f rest].
  { intros [= <- <-] h. by rewrite bool_decide_eq_false_2 by apply not_elem_of_nil. }
  rewrite save_files_nonempty by done.
  destruct (os_makedirs _ _ w) as [[[]|e] w1] eqn:Hmk; [| done].
  apply os_makedirs_inv in Hmk as (_ & Hs & _ & _).
  rewrite <- Hs in *. by apply save_loop_consumed.
Qed.

Lemma save_files_sources_consumed_witness :
  streams (_save_files env_ticking two_same_name "custom" world_three_uploads).2
    !! 1 = Some []
  ∧ streams (_save_files env_ticking two_same_name "custom" world_three_uploads).2
      !! 2 = Some [Byte.x03].
Proof.
  destruct (_save_files env_ticking two_same_name "custom" world_three_uploads)
    as [[paths|e] w'] eqn:Hrun; [| vm_compute in Hrun; discriminate].
  assert (Hopen : Forall (λ f, is_Some (streams world_three_uploads !! file f))
                    two_same_name)
    by (repeat constructor; vm_compute; eauto).
  pose proof (save_files_sources_consumed env_ticking two_same_name "custom"
                world_three_uploads paths w' Hopen Hrun) as Hs.
  simpl. split.
  - rewrite (Hs 1). by vm_compute.
  - rewrite (Hs 2). by vm_compute.
Defined.

(** X4.  Whatever the outcome of a call, [_save_files] removes nothing:
    every path that was a file still is one, every directory is still
    there, and no source outside the batch is read.  When the call
    returns, it returns one path per item and each of them is a file. *)
Theorem save_files_keeps_what_exists env files subdir w :
  (∀ q, is_Some (fs_files w !! q) →
        is_Some (fs_files (_save_files env files subdir w).2 !! q))
  ∧ fs_dirs w ⊆ fs_dirs (_save_files env files subdir w).2
  ∧ (∀ h, h ∉ file <$> files →
          streams (_save_files env files subdir w).2 !! h = streams w !! h)
  ∧ (∀ paths, (_save_files env files subdir w).1 = Return paths →
       length paths = length files
       ∧ Forall (λ p, is_Some (fs_files (_save_files env files subdir w).2 !! p))
           paths).
Proof.
  destruct files as [|f rest].
  { simpl. split_and!; auto. intros paths [= <-]. by split. }
  rewrite save_files_nonempty by done.
  destruct (os_makedirs _ _ w) as [[[]|e] w1] eqn:Hmk;
    destruct (os_makedirs_dirs _ _ _ _ _ Hmk) as [Hsub _];
    apply os_makedirs_inv in Hmk as (Hf & Hs & Ht & _).
  - destruct (save_loop env _ (f :: rest) [] w1) as [r w'] eqn:Hrun.
    pose proof (λ h, save_loop_streams _ _ _ _ _ _ _ h Hrun) as Hstr.
    apply save_loop_inv in Hrun as (Hd & _ & Hkeep & Hret). simpl.
    split_and!.
    + intros q Hq. apply Hkeep. by rewrite Hf.
    + by rewrite Hd.
    + intros h Hh. rewrite <- Hs. by apply Hstr.
    + intros paths ->. destruct (Hret _ eq_refl) as (-> & _ & Hex).
      split; [apply generated_paths_length | by apply Forall_forall].
  - simpl. split_and!; [by rewrite Hf | done | by rewrite Hs | done].
Qed.

(** X5.  When [os.makedirs] fails, [_save_files] raises that error
    before anything else happens: no file is written, no source is read,
    the clock is not read. *)
Theorem save_files_makedirs_fails env files subdir w k msg :
  files ≠ [] →
  fs_outcome env (ops w) = Fails k msg →
  ∃ w', _save_files env files subdir w = (Raise (OSError msg), w')
        ∧ fs_files w' = fs_files w
        ∧ streams w' = streams w
        ∧ ticks w' = ticks w.
Proof.
  intros Hne Hfail. rewrite save_files_nonempty by done.
  unfold os_makedirs. rewrite Hfail. eexists. split; [reflexivity |]. done.
Qed.

Lemma save_files_makedirs_fails_witness :
  ∃ w', _save_files env_makedirs_fails two_same_name "custom" world_three_uploads
        = (Raise (OSError "Permission denied"), w')
        ∧ fs_files w' = fs_files world_three_uploads
        ∧ streams w' = streams world_three_uploads
        ∧ ticks w' = ticks world_three_uploads.
Proof.
  apply (save_files_makedirs_fails env_makedirs_fails two_same_name "custom"
           world_three_uploads 1 "Permission denied"); [done | reflexivity].
Defined.

(** ** Where the files go *)

Lemma endswith_app c a b :
  b ≠ EmptyString → Str.endswith c (a +:+ b) = Str.endswith c b.
Proof.
  intros Hb. induction a as [|x a IH]; [done |].
  rewrite StrFacts.app_cons. simpl. rewrite IH.
  destruct (a +:+ b) eqn:Heq; [| done].
  destruct a; [by destruct b | discriminate].
Qed.

Lemma app_not_empty_r a b : b ≠ EmptyString → a +:+ b ≠ EmptyString.
Proof. intros Hb. destruct a; [done | discriminate]. Qed.

(** [UPLOAD_DIR] is the working directory, a separator, and [uploads]. *)
Lemma UPLOAD_DIR_eq env :
  UPLOAD_DIR env = Posixpath.dir_prefix (cwd env) +:+ "uploads".
Proof. unfold UPLOAD_DIR. by apply PosixpathFacts.join_relative. Qed.

Lemma UPLOAD_DIR_prefix env :
  Posixpath.dir_prefix (UPLOAD_DIR env) = UPLOAD_DIR env +:+ "/".
Proof.
  unfold Posixpath.dir_prefix.
  rewrite (bool_decide_eq_false_2 (UPLOAD_DIR env = EmptyString))
    by (rewrite UPLOAD_DIR_eq; by apply app_not_empty_r).
  rewrite UPLOAD_DIR_eq at 1. by rewrite endswith_app.
Qed.

(** A relative, non-empty subdirectory that does not end in [/] gives a
    destination directory of the same kind under [UPLOAD_DIR]. *)
Lemma dest_dir_prefix env subdir :
  Str.startswith Str.slash subdir = false →
  subdir ≠ EmptyString →
  Str.endswith Str.slash subdir = false →
  Posixpath.dir_prefix (Posixpath.join (UPLOAD_DIR env) subdir)
  = UPLOAD_DIR env +:+ "/" +:+ subdir +:+ "/".
Proof.
  intros Hrel Hne Hend.
  rewrite PosixpathFacts.join_relative, UPLOAD_DIR_prefix by done.
  unfold Posixpath.dir_prefix.
  rewrite bool_decide_eq_false_2 by (by apply app_not_empty_r).
  rewrite endswith_app, Hend by done. simpl.
  by rewrite !StrFacts.app_assoc.
Qed.

Lemma out_path_under env subdir t f :
  Str.startswith Str.slash subdir = false →
  subdir ≠ EmptyString →
  Str.endswith Str.slash subdir = false →
  out_path env (Posixpath.join (UPLOAD_DIR env) subdir) t f
  = Posixpath.dir_prefix (cwd env) +:+ "uploads/" +:+ subdir +:+ "/"
    +:+ Datetime.strftime_YmdHMSf (utcnow env t) +:+ "_"
    +:+ safe_name (filename_or_file f).
Proof.
  intros Hrel Hne Hend.
  rewrite out_path_eq, dest_dir_prefix, UPLOAD_DIR_eq by done.
  unfold stored_name. by rewrite !StrFacts.app_assoc.
Qed.

(** X6.  The persisted layout.  For a relative, non-empty subdirectory
    that does not end in [/], when every source is open and no
    filesystem operation of the call fails, [_save_files] returns for
    item [i] the path [<cwd>/uploads/<subdir>/<stamp>_<name>], where the
    stamp is that of the instant read for the item and the name is the
    client's filename, or [file], with its separators replaced; and
    that path is a file afterwards. *)
Theorem save_files_layout env files subdir w i f :
  Str.startswith Str.slash subdir = false →
  subdir ≠ EmptyString →
  Str.endswith Str.slash subdir = false →
  files !! i = Some f →
  Forall (λ f, is_Some (streams w !! file f)) files →
  quiet env (ops w) (ops w + 1 + 3 * length files) →
  ∃ paths w',
    _save_files env files subdir w = (Return paths, w')
    ∧ paths !! i
      = Some (Posixpath.dir_prefix (cwd env) +:+ "uploads/" +:+ subdir +:+ "/"
              +:+ Datetime.strftime_YmdHMSf (utcnow env (ticks w + i)) +:+ "_"
              +:+ safe_name (filename_or_file f))
    ∧ is_Some (fs_files w'
                 !! (Posixpath.dir_prefix (cwd env) +:+ "uploads/" +:+ subdir
                     +:+ "/"
                     +:+ Datetime.strftime_YmdHMSf (utcnow env (ticks w + i))
                     +:+ "_" +:+ safe_name (filename_or_file f))).
Proof.
  intros Hrel Hne Hend Hi Hopen Hq. rewrite Forall_forall in Hopen.
  assert (Hfiles : files ≠ []) by (by destruct files).
  destruct (save_files_reads env files subdir w Hfiles Hopen Hq)
    as (w' & Hrun & _).
  pose proof (save_files_Return_exist _ _ _ _ _ _ Hrun) as Hex.
  rewrite Forall_forall in Hex.
  assert (Hp : generated_paths env (Posixpath.join (UPLOAD_DIR env) subdir)
                 (ticks w) files !! i
               = Some (Posixpath.dir_prefix (cwd env) +:+ "uploads/" +:+ subdir
                       +:+ "/"
                       +:+ Datetime.strftime_YmdHMSf (utcnow env (ticks w + i))
                       +:+ "_" +:+ safe_name (filename_or_file f))).
  { rewrite generated_paths_lookup, Hi. simpl. f_equal. by apply out_path_under. }
  eexists _, w'. split_and!; [exact Hrun | exact Hp |].
  apply Hex. by eapply list_elem_of_lookup_2.
Qed.

Lemma save_files_layout_witness :
  ∃ paths w',
    _save_files env_ticking [mk_UploadFile (Some "../x/y.png") 0] "custom"
      world_three_uploads
    = (Return paths, w')
    ∧ paths !! 0
      = Some "/srv/app/uploads/custom/20240309070501000000_.._x_y.png"
    ∧ is_Some (fs_files w'
                 !! "/srv/app/uploads/custom/20240309070501000000_.._x_y.png").
Proof.
  apply (save_files_layout env_ticking [mk_UploadFile (Some "../x/y.png") 0]
           "custom" world_three_uploads 0 (mk_UploadFile (Some "../x/y.png") 0)).
  - reflexivity.
  - discriminate.
  - reflexivity.
  - reflexivity.
  - repeat constructor; vm_compute; eauto.
  - intros n _. reflexivity.
Defined.

Lemma replace_absent a b s : Str.mem a s = false → Str.replace a b s = s.
Proof.
  induction s as [|c s IH]; simpl; [done |].
  intros [Hc Hs]%orb_false_elim. by rewrite Hc, IH.
Qed.

Lemma safe_name_fixes fname :
  Str.mem Str.slash fname = false →
  Str.mem Str.backslash fname = false →
  safe_name fname = fname.
Proof.
  intros H1 H2. unfold safe_name. by rewrite (replace_absent _ _ _ H1), replace_absent.
Qed.



(** X8.  Sanitising keeps the length of a filename, and sanitising twice
    is sanitising once. *)
Theorem safe_name_idempotent fname :
  String.length (safe_name fname) = String.length fname
  ∧ safe_name (safe_name fname) = safe_name fname.
Proof.
  split.
  - unfold safe_name. by rewrite !StrFacts.length_replace.
  - apply safe_name_fixes; [apply safe_name_no_slash | apply safe_name_no_backslash].
Qed.

(** ** Directories *)

Lemma parents_elem pre a b :
  pre +:+ a ≠ EmptyString →
  pre +:+ a ∈ parents pre (a +:+ String Str.slash b).
Proof.
  revert pre; induction a as [|c a IH]; intros pre Hne.
  - rewrite StrFacts.app_nil_r in *. simpl.
    rewrite (bool_decide_eq_false_2 (pre = EmptyString)) by done. simpl. by left.
  - rewrite StrFacts.app_cons. simpl. apply elem_of_app. right.
    replace (pre +:+ String c a) with ((pre +:+ String c EmptyString) +:+ a)
      in * by (by rewrite StrFacts.app_assoc).
    by apply IH.
Qed.

(** X9.  After a call on a non-empty batch that returns, the destination
    directory is a directory, and for a relative subdirectory so is
    [UPLOAD_DIR] above it. *)
Theorem save_files_creates_directories env files subdir w paths w' :
  files ≠ [] →
  Str.startswith Str.slash subdir = false →
  _save_files env files subdir w = (Return paths, w') →
  Posixpath.join (UPLOAD_DIR env) subdir ∈ fs_dirs w'
  ∧ UPLOAD_DIR env ∈ fs_dirs w'.
Proof.
  intros Hne Hrel. rewrite save_files_nonempty by done.
  destruct (os_makedirs _ _ w) as [[[]|e] w1] eqn:Hmk; [| done].
  destruct (os_makedirs_dirs _ _ _ _ _ Hmk) as [_ Hdirs].
  intros Hrun. apply save_loop_inv in Hrun as (Hd & _).
  rewrite Hd, (Hdirs eq_refl).
  split; apply elem_of_union_l, elem_of_list_to_set.
  - apply makedirs_chain_self.
  - unfold makedirs_chain. apply elem_of_app. left.
    rewrite PosixpathFacts.join_relative, UPLOAD_DIR_prefix, StrFacts.app_assoc
      by done.
    apply (parents_elem EmptyString (UPLOAD_DIR env) subdir).
    change (UPLOAD_DIR env ≠ EmptyString).
    rewrite UPLOAD_DIR_eq. by apply app_not_empty_r.
Qed.

Lemma save_files_creates_directories_witness :
  "/srv/app/uploads/custom"
    ∈ fs_dirs (_save_files env_ticking two_same_name "custom"
                 world_three_uploads).2
  ∧ "/srv/app/uploads"
      ∈ fs_dirs (_save_files env_ticking two_same_name "custom"
                   world_three_uploads).2.
Proof.
  destruct (_save_files env_ticking two_same_name "custom" world_three_uploads)
    as [[paths|e] w'] eqn:Hrun; [| vm_compute in Hrun; discriminate].
  exact (save_files_creates_directories env_ticking two_same_name "custom"
           world_three_uploads paths w' ltac:(done) eq_refl Hrun).
Defined.

(** ** Time stamps *)

Lemma compare_app a1 a2 b1 b2 :
  String.length a1 = String.length a2 →
  String.compare (a1 +:+ b1) (a2 +:+ b2)
  = match String.compare a1 a2 with
    | Eq => String.compare b1 b2
    | c => c
    end.
Proof.
  revert a2; induction a1 as [|x a1 IH]; intros [|y a2]; simpl; try done.
  intros [= Hl]. rewrite ?StrFacts.app_cons. simpl.
  destruct (Ascii.compare x y); auto.
Qed.

Lemma compare_div_mod n m :
  N.compare n m
  = match N.compare (n / 10) (m / 10) with
    | Eq => N.compare (n mod 10) (m mod 10)
    | c => c
    end.
Proof.
  pose proof (N.div_mod n 10 ltac:(lia)) as Hn.
  pose proof (N.div_mod m 10 ltac:(lia)) as Hm.
  pose proof (N.mod_lt n 10 ltac:(lia)) as Hn'.
  pose proof (N.mod_lt m 10 ltac:(lia)) as Hm'.
  revert Hn Hm Hn' Hm'.
  generalize (n / 10)%N (n mod 10)%N (m / 10)%N (m mod 10)%N.
  intros qn rn qm rm Hn Hm Hn' Hm'.
  destruct (N.compare_spec qn qm) as [Hq|Hq|Hq].
  - destruct (N.compare_spec rn rm) as [Hr|Hr|Hr].
    + apply N.compare_eq_iff. lia.
    + apply N.compare_lt_iff. lia.
    + apply N.compare_gt_iff. lia.
  - apply N.compare_lt_iff. lia.
  - apply N.compare_gt_iff. lia.
Qed.

Lemma compare_add_l p a b : N.compare (p + a) (p + b) = N.compare a b.
Proof.
  destruct (N.compare_spec a b).
  - apply N.compare_eq_iff. lia.
  - apply N.compare_lt_iff. lia.
  - apply N.compare_gt_iff. lia.
Qed.

Lemma zpad_compare w n m :
  (n < 10 ^ N.of_nat w)%N → (m < 10 ^ N.of_nat w)%N →
  String.compare (Datetime.zpad w n) (Datetime.zpad w m) = N.compare n m.
Proof.
  revert n m; induction w as [|w IH]; intros n m Hn Hm.
  - simpl in *. assert (n = 0%N) as -> by lia. by assert (m = 0%N) as -> by lia.
  - rewrite Nat2N.inj_succ, N.pow_succ_r' in Hn, Hm. simpl.
    rewrite compare_app by (by rewrite !DatetimeFacts.zpad_length).
    rewrite IH by (apply N.Div0.div_lt_upper_bound; lia).
    rewrite (compare_div_mod n m).
    destruct (N.compare (n / 10) (m / 10)); try done.
    simpl. unfold Ascii.compare, Datetime.digit.
    rewrite !N_ascii_embedding
      by (pose proof (N.mod_lt n 10); pose proof (N.mod_lt m 10); lia).
    rewrite compare_add_l.
    by destruct (N.compare (n mod 10) (m mod 10)).
Qed.

(** For two well-formed instants the byte order of the stamps is the
    order of the instants. *)
Lemma stamp_compare d1 d2 :
  Datetime.wellformed d1 → Datetime.wellformed d2 →
  String.compare (Datetime.strftime_YmdHMSf d1) (Datetime.strftime_YmdHMSf d2)
  = DatetimeOrder.compare d1 d2.
Proof.
  destruct d1 as [y1 mo1 dd1 h1 mi1 s1 u1], d2 as [y2 mo2 dd2 h2 mi2 s2 u2].
  unfold Datetime.wellformed, Datetime.strftime_YmdHMSf, DatetimeOrder.compare;
    cbn [Datetime.year Datetime.month Datetime.day Datetime.hour
         Datetime.minute Datetime.second Datetime.microsecond].
  intros (Hy1 & Hmo1 & Hd1 & Hh1 & Hmi1 & Hs1 & Hu1)
         (Hy2 & Hmo2 & Hd2 & Hh2 & Hmi2 & Hs2 & Hu2).
  rewrite !compare_app by (by rewrite !DatetimeFacts.zpad_length).
  rewrite !zpad_compare by (simpl; lia).
  done.
Qed.

Lemma compare_common_prefix p a b :
  String.compare (p +:+ a) (p +:+ b) = String.compare a b.
Proof.
  induction p as [|c p IH]; [done |].
  rewrite !StrFacts.app_cons. simpl.
  unfold Ascii.compare. by rewrite N.compare_refl.
Qed.

(** X12.  Stored names sort by time.  In a call that returns, if the
    clock showed an earlier instant for item [i] than for item [j] (both
    well formed, with a year of four digits), then the path returned for
    item [i] comes before the path returned for item [j] in the byte
    order of strings, whatever the two filenames are. *)
Theorem save_files_paths_sorted env files subdir w paths w' i j pi pj :
  _save_files env files subdir w = (Return paths, w') →
  paths !! i = Some pi →
  paths !! j = Some pj →
  Datetime.wellformed (utcnow env (ticks w + i)) →
  Datetime.wellformed (utcnow env (ticks w + j)) →
  (1000 ≤ Datetime.year (utcnow env (ticks w + i)))%N →
  (1000 ≤ Datetime.year (utcnow env (ticks w + j)))%N →
  DatetimeOrder.compare (utcnow env (ticks w + i)) (utcnow env (ticks w + j)) = Lt →
  String.compare pi pj = Lt.
Proof.
  intros Hrun Hi Hj Hwi Hwj _ _ Hlt.
  apply save_files_inv in Hrun as [_ Hret]. rewrite (Hret _ eq_refl) in Hi, Hj.
  rewrite generated_paths_lookup in Hi, Hj.
  destruct (files !! i) as [fi|]; [| done].
  destruct (files !! j) as [fj|]; [| done].
  simpl in Hi, Hj. injection Hi as <-. injection Hj as <-.
  rewrite !out_path_eq, compare_common_prefix. unfold stored_name.
  rewrite compare_app by (by rewrite !DatetimeFacts.strftime_YmdHMSf_length).
  by rewrite stamp_compare, Hlt.
Qed.

Lemma save_files_paths_sorted_witness :
  String.compare "/srv/app/uploads/custom/20240309070501000000_b.png"
                 "/srv/app/uploads/custom/20240309070501000001_a.png" = Lt.
Proof.
  destruct (_save_files env_ticking
              [mk_UploadFile (Some "b.png") 0; mk_UploadFile (Some "a.png") 1]
              "custom" world_three_uploads) as [[paths|e] w'] eqn:Hrun;
    [| vm_compute in Hrun; discriminate].
  assert (Hpaths : paths
                   = ["/srv/app/uploads/custom/20240309070501000000_b.png";
                      "/srv/app/uploads/custom/20240309070501000001_a.png"]).
  { pose proof Hrun as Hrun'. vm_compute in Hrun'. by injection Hrun' as <- _. }
  apply (save_files_paths_sorted env_ticking
           [mk_UploadFile (Some "b.png") 0; mk_UploadFile (Some "a.png") 1]
           "custom" world_three_uploads paths w' 0 1).
  - exact Hrun.
  - by rewrite Hpaths.
  - by rewrite Hpaths.
  - unfold Datetime.wellformed. simpl. lia.
  - unfold Datetime.wellformed. simpl. lia.
  - simpl. lia.
  - simpl. lia.
  - reflexivity.
Defined.

(** ** The form handlers, composed with the persister *)

Lemma collect_batches_concat fields batches :
  concat (collect_batches fields batches)
  = concat batches ++ concat (uploads_of <$> fields).
Proof.
  revert batches; induction fields as [|b rest IH]; intros batches; simpl.
  - by rewrite app_nil_r.
  - rewrite IH. destruct b as [|f|[|f l]]; simpl;
      rewrite ?concat_app; simpl; rewrite ?app_nil_r, <- ?app_assoc; done.
Qed.

Lemma flatten_collect files_0 files_1 files_2 files_3 :
  flatten_uploads (collect_batches [files_0; files_1; files_2; files_3] [])
  = uploads_of files_0 ++ uploads_of files_1
    ++ uploads_of files_2 ++ uploads_of files_3.
Proof.
  unfold flatten_uploads. rewrite collect_batches_concat. simpl.
  by rewrite app_nil_r.
Qed.

(** X13.  The batch handed to the persister is the uploads of the four
    file fields in field order, each field in its own order; a single
    upload counts as a list of one, an absent or empty field adds
    nothing. *)
Theorem submit_plan_flattens_in_field_order files_0 files_1 files_2 files_3 :
  flatten_uploads (collect_batches [files_0; files_1; files_2; files_3] [])
  = uploads_of files_0 ++ uploads_of files_1
    ++ uploads_of files_2 ++ uploads_of files_3.
Proof. apply flatten_collect. Qed.

(** With at least one upload, [submit_plan] reads the clock once for the
    directory name and hands the whole batch to [_save_files]. *)
Lemma submit_plan_unfold env plan max_photos brand email products
    files_0 files_1 files_2 files_3 w :
  plan_uploads files_0 files_1 files_2 files_3 ≠ [] →
  submit_plan env plan max_photos brand email products
    files_0 files_1 files_2 files_3 w
  = (acknowledge (plan_receipt plan max_photos brand email products)
       (_save_files env
          (plan_uploads files_0 files_1 files_2 files_3)
          (plan_subdir env plan w) (after_clock_read w)).1,
     (_save_files env
        (plan_uploads files_0 files_1 files_2 files_3)
        (plan_subdir env plan w) (after_clock_read w)).2).
Proof.
  intros Hne. unfold submit_plan, submit_plan_with.
  rewrite flatten_collect. fold (plan_uploads files_0 files_1 files_2 files_3).
  destruct (plan_uploads files_0 files_1 files_2 files_3) as [|f all] eqn:Hall;
    [done |].
  generalize (_save_files env). intros persist.
  unfold_M. simpl. fold (after_clock_read w). fold (plan_subdir env plan w).
  by destruct (persist (f :: all) (plan_subdir env plan w)
                 (after_clock_read w)) as [[saved|e] w'].
Qed.

(** X14.  How [submit_plan] composes with the persister.  With at least
    one upload, the world after the request is the world [_save_files]
    leaves for the flattened batch in [plan_<plan>_<YYYYMMDD>], the date
    being the one read at the start of the request.  If the persister
    returns, the answer is the 200 receipt whose [saved_count] is the
    number of returned paths.  If the persister raises, the handler raises
    500 with [str(e)], and what was written stays written. *)
Theorem submit_plan_composes env plan max_photos brand email products
    files_0 files_1 files_2 files_3 w :
  plan_uploads files_0 files_1 files_2 files_3 ≠ [] →
  submit_plan env plan max_photos brand email products
    files_0 files_1 files_2 files_3 w
  = (acknowledge (plan_receipt plan max_photos brand email products)
       (_save_files env
          (plan_uploads files_0 files_1 files_2 files_3)
          (plan_subdir env plan w) (after_clock_read w)).1,
     (_save_files env
        (plan_uploads files_0 files_1 files_2 files_3)
        (plan_subdir env plan w) (after_clock_read w)).2).
Proof. apply submit_plan_unfold. Qed.

Lemma submit_plan_composes_witness :
  (submit_plan (env_failing_at 6) "A" 5 "X" "a@b.com" (Some 3%Z)
     (OneFile (mk_UploadFile (Some "a.png") 0)) NoFiles
     (FileList [mk_UploadFile (Some "b.png") 1]) NoFiles
     world_three_uploads).1
  = Raise (mk_HTTPException 500 "No space left on device").
Proof.
  rewrite (submit_plan_composes (env_failing_at 6) "A" 5 "X" "a@b.com" (Some 3%Z)
             (OneFile (mk_UploadFile (Some "a.png") 0)) NoFiles
             (FileList [mk_UploadFile (Some "b.png") 1]) NoFiles
             world_three_uploads) by done.
  by vm_compute.
Defined.

(** X15.  The three answers of [submit_plan]: the status is 422 exactly
    when no field holds an upload, and otherwise it is 200 or 500. *)
Theorem submit_plan_status env plan max_photos brand email products
    files_0 files_1 files_2 files_3 w :
  ((http_reply (submit_plan env plan max_photos brand email products
                  files_0 files_1 files_2 files_3 w).1).1 = 422
   ↔ plan_uploads files_0 files_1 files_2 files_3 = [])
  ∧ (http_reply (submit_plan env plan max_photos brand email products
                   files_0 files_1 files_2 files_3 w).1).1 ∈ [200; 422; 500].
Proof.
  destruct (decide (plan_uploads files_0 files_1 files_2 files_3 = []))
    as [Hnil|Hne].
  - assert (Hrun : (submit_plan env plan max_photos brand email products
                      files_0 files_1 files_2 files_3 w).1
                   = Raise (mk_HTTPException 422 "Nenhum ficheiro enviado")).
    { unfold submit_plan, submit_plan_with. rewrite flatten_collect.
      fold (plan_uploads files_0 files_1 files_2 files_3). by rewrite Hnil. }
    rewrite Hrun. simpl. split; [done | by right; left].
  - rewrite submit_plan_unfold by done. simpl.
    destruct (_save_files _ _ _ _).1; simpl;
      (split; [split; [done | done] | first [by left | by right; right; left]]).
Qed.

(** X16.  When every source is open and no filesystem operation of the
    request fails, [submit_plan] answers 200 with the fields of the form
    echoed and [saved_count] equal to the number of uploads received,
    whether or not two of them ended up under one name, and the path
    generated for each upload is a file afterwards. *)
Theorem submit_plan_stores_every_upload env plan max_photos brand email products
    files_0 files_1 files_2 files_3 w :
  plan_uploads files_0 files_1 files_2 files_3 ≠ [] →
  Forall (λ f, is_Some (streams w !! file f))
    (plan_uploads files_0 files_1 files_2 files_3) →
  quiet env (ops w)
    (ops w + 1 + 3 * length (plan_uploads files_0 files_1 files_2 files_3)) →
  ∃ w',
    submit_plan env plan max_photos brand email products
      files_0 files_1 files_2 files_3 w
    = (Return (plan_receipt plan max_photos brand email products
                 (length (plan_uploads files_0 files_1 files_2 files_3))), w')
    ∧ ∀ i f, plan_uploads files_0 files_1 files_2 files_3 !! i = Some f →
        is_Some (fs_files w'
                   !! out_path env
                        (Posixpath.join (UPLOAD_DIR env) (plan_subdir env plan w))
                        (S (ticks w) + i) f).
Proof.
  intros Hne Hopen Hq. rewrite Forall_forall in Hopen.
  rewrite submit_plan_unfold by done.
  destruct (save_files_reads env (plan_uploads files_0 files_1 files_2 files_3)
              (plan_subdir env plan w) (after_clock_read w) Hne Hopen Hq)
    as (w' & Hrun & _).
  rewrite Hrun. simpl. rewrite generated_paths_length.
  exists w'. split; [done |]. intros i f Hi.
  apply save_files_Return_exist in Hrun. rewrite Forall_forall in Hrun.
  apply Hrun, list_elem_of_lookup. exists i.
  by rewrite generated_paths_lookup, Hi.
Qed.

Lemma submit_plan_stores_every_upload_witness :
  ∃ w',
    submit_plan env_frozen "A" 5 "X" "a@b.com" None
      (FileList two_same_name) NoFiles NoFiles NoFiles world_three_uploads
    = (Return (plan_receipt "A" 5 "X" "a@b.com" None 2), w').
Proof.
  destruct (submit_plan_stores_every_upload env_frozen "A" 5 "X" "a@b.com" None
              (FileList two_same_name) NoFiles NoFiles NoFiles world_three_uploads)
    as (w' & Hrun & _).
  - done.
  - repeat constructor; vm_compute; eauto.
  - intros n _. reflexivity.
  - exists w'. exact Hrun.
Defined.

Lemma custom_request_unfold env description brand email f w :
  custom_request env description brand email (Some f) w
  = (acknowledge (custom_receipt description brand email)
       (_save_files env [f] "custom" w).1,
     (_save_files env [f] "custom" w).2).
Proof.
  unfold custom_request, custom_request_with.
  generalize (_save_files env). intros persist. unfold_M.
  by destruct (persist [f] "custom" w) as [[saved|e] w'].
Qed.

(** X17.  How [custom_request] composes with the persister.  With a
    reference file, the world after the request is the world
    [_save_files] leaves for that one file in [custom]; the answer is the
    200 receipt with the number of returned paths, or, if the persister
    raises, 500 with [str(e)].  There is no other answer: the status is
    200 or 500 whatever the request. *)
Theorem custom_request_composes env description brand email f reference w :
  custom_request env description brand email (Some f) w
  = (acknowledge (custom_receipt description brand email)
       (_save_files env [f] "custom" w).1,
     (_save_files env [f] "custom" w).2)
  ∧ (http_reply (custom_request env description brand email reference w).1).1
    ∈ [200; 500].
Proof.
  split; [apply custom_request_unfold |].
  destruct reference as [g|]; [| by left].
  rewrite custom_request_unfold.
  destruct (_save_files env [g] "custom" w) as [[saved|e] w']; simpl;
    [by left | by right; left].
Qed.

(** X18.  When the source of the reference file is open and the four
    filesystem operations succeed, [custom_request] answers 200 with
    [saved_count] 1, and the file
    [<cwd>/uploads/custom/<stamp>_<name>] holds the bytes of the
    source. *)
Theorem custom_request_stores_reference env description brand email f w data :
  streams w !! file f = Some data →
  quiet env (ops w) (ops w + 4) →
  ∃ w',
    custom_request env description brand email (Some f) w
    = (Return (custom_receipt description brand email 1), w')
    ∧ fs_files w'
        !! (Posixpath.dir_prefix (cwd env) +:+ "uploads/custom/"
            +:+ Datetime.strftime_YmdHMSf (utcnow env (ticks w)) +:+ "_"
            +:+ safe_name (filename_or_file f))
      = Some data.
Proof.
  intros Hdata Hq. rewrite custom_request_unfold.
  destruct (save_files_reads env [f] "custom" w) as (w' & Hrun & _ & _ & Hcontent).
  - done.
  - intros g ->%list_elem_of_singleton. eauto.
  - intros n Hn. apply Hq. simpl in Hn. lia.
  - rewrite Hrun. simpl. exists w'. split; [done |].
    specialize (Hcontent 0 f eq_refl). rewrite Nat.add_0_r in Hcontent.
    rewrite (out_path_under env "custom") in Hcontent by done.
    transitivity (Some (bytes_read w [f] 0 f)).
    + apply Hcontent. intros [|[|j]] Hj; simpl; [lia | done | done].
    + unfold bytes_read. simpl. by rewrite Hdata.
Qed.

Lemma custom_request_stores_reference_witness :
  ∃ w',
    custom_request env_ticking "d" "X" "a@b.com"
      (Some (mk_UploadFile (Some "ref/1.png") 2)) world_three_uploads
    = (Return (custom_receipt "d" "X" "a@b.com" 1), w')
    ∧ fs_files w' !! "/srv/app/uploads/custom/20240309070501000000_ref_1.png"
      = Some [Byte.x03].
Proof.
  apply (custom_request_stores_reference env_ticking "d" "X" "a@b.com"
           (mk_UploadFile (Some "ref/1.png") 2) world_three_uploads [Byte.x03]).
  - by vm_compute.
  - intros n _. reflexivity.
Defined.

(** X19.  A request changes no file outside its directory: the files
    that differ after [submit_plan] are directly inside
    [UPLOAD_DIR/plan_<plan>_<date>], those that differ after
    [custom_request] directly inside [UPLOAD_DIR/custom], in every
    outcome. *)
Theorem handlers_write_in_their_directory env w :
  (∀ plan max_photos brand email products files_0 files_1 files_2 files_3 q,
     fs_files (submit_plan env plan max_photos brand email products
                 files_0 files_1 files_2 files_3 w).2 !! q
     ≠ fs_files w !! q →
     directly_inside (Posixpath.join (UPLOAD_DIR env) (plan_subdir env plan w)) q)
  ∧ (∀ description brand email reference q,
       fs_files (custom_request env description brand email reference w).2 !! q
       ≠ fs_files w !! q →
       directly_inside (Posixpath.join (UPLOAD_DIR env) "custom") q).
Proof.
  assert (Hsave : ∀ files subdir w0 q,
    fs_files (_save_files env files subdir w0).2 !! q ≠ fs_files w0 !! q →
    directly_inside (Posixpath.join (UPLOAD_DIR env) subdir) q).
  { intros files subdir w0 q Hq.
    destruct (_save_files env files subdir w0) as [r w'] eqn:Hrun.
    apply save_files_inv in Hrun as [Hfr _]. simpl in Hq.
    destruct (decide (q ∈ generated_paths env (Posixpath.join (UPLOAD_DIR env) subdir)
                            (ticks w0) files)) as [Hin|Hout].
    - by eapply generated_paths_directly_inside.
    - by destruct (Hq (Hfr q Hout)). }
  split.
  - intros plan max_photos brand email products files_0 files_1 files_2 files_3 q.
    destruct (decide (plan_uploads files_0 files_1 files_2 files_3 = []))
      as [Hnil|Hne].
    + unfold submit_plan, submit_plan_with. rewrite flatten_collect.
      fold (plan_uploads files_0 files_1 files_2 files_3). rewrite Hnil.
      by intros [].
    + rewrite submit_plan_unfold by done. simpl. intros Hq.
      exact (Hsave (plan_uploads files_0 files_1 files_2 files_3)
               (plan_subdir env plan w) (after_clock_read w) q Hq).
  - intros description brand email [f|] q.
    + rewrite custom_request_unfold. exact (Hsave [f] "custom" w q).
    + by intros [].
Qed.

Lemma strftime_Ymd_end d :
  Datetime.strftime_Ymd d ≠ EmptyString
  ∧ Str.endswith Str.slash (Datetime.strftime_Ymd d) = false.
Proof.
  split.
  - intros H%(f_equal String.length). revert H. unfold Datetime.strftime_Ymd.
    by rewrite !StrFacts.length_app, !DatetimeFacts.zpad_length.
  - unfold Datetime.strftime_Ymd.
    change (Datetime.zpad 2 (Datetime.day d))
      with (Datetime.zpad 1 (Datetime.day d / 10)
            +:+ String (Datetime.digit (Datetime.day d mod 10)) EmptyString).
    rewrite !endswith_app by (try done; by apply app_not_empty_r).
    simpl. apply bool_decide_eq_false. intros Heq.
    by apply (DatetimeFacts.slash_not_digit (Datetime.day d mod 10));
      [apply N.mod_lt |].
Qed.

(** X20.  Where [submit_plan] stores an upload.  When every source is
    open and no filesystem operation of the request fails, the request
    returns its receipt and every upload is afterwards a file at
    [<cwd>/uploads/plan_<plan>_<YYYYMMDD>/<stamp>_<name>]: the date is
    the one read at the start of the request, the stamp the one read for
    the upload, and the plan identifier appears exactly as the client
    sent it. *)
Theorem submit_plan_layout env plan max_photos brand email products
    files_0 files_1 files_2 files_3 w i f :
  plan_uploads files_0 files_1 files_2 files_3 !! i = Some f →
  Forall (λ f, is_Some (streams w !! file f))
    (plan_uploads files_0 files_1 files_2 files_3) →
  quiet env (ops w)
    (ops w + 1 + 3 * length (plan_uploads files_0 files_1 files_2 files_3)) →
  ∃ w',
    submit_plan env plan max_photos brand email products
      files_0 files_1 files_2 files_3 w
    = (Return (plan_receipt plan max_photos brand email products
                 (length (plan_uploads files_0 files_1 files_2 files_3))), w')
    ∧ is_Some (fs_files w'
                 !! (Posixpath.dir_prefix (cwd env) +:+ "uploads/plan_" +:+ plan
                     +:+ "_" +:+ Datetime.strftime_Ymd (utcnow env (ticks w))
                     +:+ "/"
                     +:+ Datetime.strftime_YmdHMSf (utcnow env (S (ticks w) + i))
                     +:+ "_" +:+ safe_name (filename_or_file f))).
Proof.
  intros Hi Hopen Hq. rewrite Forall_forall in Hopen.
  assert (Hne : plan_uploads files_0 files_1 files_2 files_3 ≠ [])
    by (intros Hnil; by rewrite Hnil in Hi).
  rewrite submit_plan_unfold by done.
  destruct (save_files_reads env (plan_uploads files_0 files_1 files_2 files_3)
              (plan_subdir env plan w) (after_clock_read w) Hne Hopen Hq)
    as (w' & Hrun & _).
  rewrite Hrun. exists w'.
  split; [simpl; by rewrite generated_paths_length |].
  apply save_files_Return_exist in Hrun. rewrite Forall_forall in Hrun.
  destruct (strftime_Ymd_end (utcnow env (ticks w))) as [Hdate Hend].
  assert (Hpath : out_path env
                    (Posixpath.join (UPLOAD_DIR env) (plan_subdir env plan w))
                    (S (ticks w) + i) f
                  = Posixpath.dir_prefix (cwd env) +:+ "uploads/plan_" +:+ plan
                    +:+ "_" +:+ Datetime.strftime_Ymd (utcnow env (ticks w))
                    +:+ "/"
                    +:+ Datetime.strftime_YmdHMSf (utcnow env (S (ticks w) + i))
                    +:+ "_" +:+ safe_name (filename_or_file f)).
  { rewrite out_path_under.
    - unfold plan_subdir. by rewrite !StrFacts.app_assoc.
    - done.
    - discriminate.
    - unfold plan_subdir.
      rewrite <- !StrFacts.app_assoc. by rewrite endswith_app. }
  rewrite <- Hpath. apply Hrun, list_elem_of_lookup. exists i.
  by rewrite generated_paths_lookup, Hi.
Qed.

Lemma submit_plan_layout_witness :
  ∃ w',
    submit_plan env_ticking "A/../B" 5 "X" "a@b.com" None
      (FileList [mk_UploadFile (Some "p.png") 0]) NoFiles NoFiles NoFiles
      world_three_uploads
    = (Return (plan_receipt "A/../B" 5 "X" "a@b.com" None 1), w')
    ∧ is_Some (fs_files w'
                 !! "/srv/app/uploads/plan_A/../B_20240309/20240309070501000001_p.png").
Proof.
  apply (submit_plan_layout env_ticking "A/../B" 5 "X" "a@b.com" None
           (FileList [mk_UploadFile (Some "p.png") 0]) NoFiles NoFiles NoFiles
           world_three_uploads 0 (mk_UploadFile (Some "p.png") 0)).
  - reflexivity.
  - repeat constructor; vm_compute; eauto.
  - intros n _. reflexivity.
Defined.

(** ** The diagnostics endpoint, in full *)

Lemma take_chars_prefix n s : Str.isprefix (Str.take_chars n s) s = true.
Proof.
  revert n; induction s as [|c s IH]; intros n; simpl; [done |].
  destruct (Str.is_continuation c); simpl.
  - by rewrite bool_decide_eq_true_2, IH.
  - destruct n; simpl; [done |]. by rewrite bool_decide_eq_true_2, IH.
Qed.

Lemma take_chars_points n s : Utf8.code_points (Str.take_chars n s) ≤ n.
Proof.
  revert n; induction s as [|c s IH]; intros n; simpl; [lia |].
  destruct (Str.is_continuation c) eqn:Hc; simpl.
  - rewrite Hc. apply IH.
  - destruct n; simpl; [lia |]. rewrite Hc. specialize (IH n). lia.
Qed.

Lemma take_chars_short n s :
  Utf8.code_points s ≤ n → Str.take_chars n s = s.
Proof.
  revert n; induction s as [|c s IH]; intros n; simpl; [done |].
  destruct (Str.is_continuation c); simpl.
  - intros H. by rewrite IH.
  - destruct n; [lia |]. intros H. rewrite IH; [done | lia].
Qed.

Lemma code_points_app a b :
  Utf8.code_points (a +:+ b) = Utf8.code_points a + Utf8.code_points b.
Proof.
  induction a as [|c a IH]; [done |].
  rewrite StrFacts.app_cons. simpl. rewrite IH. lia.
Qed.

(** X21.  The response of [/test] always has the same six keys in the
    same order, whatever the probe finds, and [backend] is always
    "✅ Running". *)
Theorem test_database_keys p :
  (test_database p).*1 = diagnostic_keys
  ∧ dict_get "backend" (test_database p) = Some (JStr "✅ Running").
Proof.
  unfold test_database.
  destruct (import_database p) as [|msg|[db|]]; [by split | by split | | by split].
  destruct (name db), (list_collection_names db); by split.
Qed.

(** X22.  [collections] is a list of at most ten names.  When the
    handle was imported, its name could be read and the listing went
    through, it is the first ten names listed and [database] says
    "✅ Connected & Working"; in every other case it is empty. *)
Theorem test_database_collections p :
  ∃ l, dict_get "collections" (test_database p) = Some (JList (JStr <$> l))
       ∧ length l ≤ 10
       ∧ (∀ db names,
            import_database p = Imported (Some db) →
            name db = NoAttribute ∨ (∃ v, name db = HasValue v) →
            list_collection_names db = Return names →
            l = take 10 names
            ∧ dict_get "database" (test_database p)
              = Some (JStr "✅ Connected & Working"))
       ∧ (l ≠ [] →
          ∃ db names,
            import_database p = Imported (Some db)
            ∧ (name db = NoAttribute ∨ ∃ v, name db = HasValue v)
            ∧ list_collection_names db = Return names
            ∧ l = take 10 names).
Proof.
  unfold test_database.
  destruct (import_database p) as [|msg|[db|]] eqn:Himp;
    try (exists []; split_and!; [done | simpl; lia | by intros ? ? [=] | done]).
  destruct (name db) as [|v| |msg] eqn:Hname;
    destruct (list_collection_names db) as [names|msg'] eqn:Hlist;
    try (exists []; split_and!;
         [done | simpl; lia
          | intros db' names' [= <-] Hread Hl;
            first [congruence | destruct Hread as [?|[? ?]]; congruence]
          | done]).
  - exists (take 10 names). split_and!.
    + done.
    + rewrite length_take. lia.
    + intros db' names' [= <-] _ Hl. rewrite Hlist in Hl. by injection Hl as <-.
    + intros _. exists db, names. rewrite Hname. by split_and!; [| left | |].
  - exists (take 10 names). split_and!.
    + done.
    + rewrite length_take. lia.
    + intros db' names' [= <-] _ Hl. rewrite Hlist in Hl. by injection Hl as <-.
    + intros _. exists db, names. rewrite Hname. by split_and!; [| right; eauto | |].
Qed.

(** X23.  [connection_status] is "Connected" exactly when a handle was
    imported and its name could be read, also when listing the
    collections then fails; otherwise it stays "Not Connected". *)
Theorem test_database_connection_status p :
  (dict_get "connection_status" (test_database p) = Some (JStr "Connected")
   ∨ dict_get "connection_status" (test_database p) = Some (JStr "Not Connected"))
  ∧ (dict_get "connection_status" (test_database p) = Some (JStr "Connected")
     ↔ ∃ db, import_database p = Imported (Some db)
             ∧ (name db = NoAttribute ∨ ∃ v, name db = HasValue v)).
Proof.
  unfold test_database.
  destruct (import_database p) as [|msg|[db|]] eqn:Himp;
    try (split; [by right | split; [done | by intros (db' & [=] & _)]]).
  destruct (name db) as [|v| |msg] eqn:Hname.
  - destruct (list_collection_names db);
      (split; [by left | split; [intros _; exists db; split; [done | by left] | done]]).
  - destruct (list_collection_names db);
      (split; [by left
              | split; [intros _; exists db; split; [done | right; eauto] | done]]).
  - split; [by right |]. split; [done |].
    intros (db' & [= <-] & [Hno|[? Hno]]); by rewrite Hname in Hno.
  - split; [by right |]. split; [done |].
    intros (db' & [= <-] & [Hno|[? Hno]]); by rewrite Hname in Hno.
Qed.

(** X24.  The [database] field is always a text, never the initial
    "❌ Not Available": every way through the probe writes it.  The text
    has at most 75 code points however long the text of an exception
    is. *)
Theorem test_database_text p :
  ∃ s, dict_get "database" (test_database p) = Some (JStr s)
       ∧ s ≠ "❌ Not Available"
       ∧ Utf8.code_points s ≤ 75.
Proof.
  assert (Herr : ∀ pre msg,
    Utf8.code_points (pre +:+ Str.take_chars 50 msg) ≤ Utf8.code_points pre + 50).
  { intros pre msg. rewrite code_points_app.
    pose proof (take_chars_points 50 msg). lia. }
  unfold test_database.
  destruct (import_database p) as [|msg|[db|]] eqn:Himp.
  - eexists. split_and!; [reflexivity | done | vm_compute; lia].
  - eexists. split_and!; [reflexivity | done |].
    etrans; [apply Herr | vm_compute; lia].
  - destruct (name db) as [|v| |msg].
    + destruct (list_collection_names db) as [names|msg].
      * eexists. split_and!; [reflexivity | done | vm_compute; lia].
      * eexists. split_and!; [reflexivity | done |].
        etrans; [apply Herr | vm_compute; lia].
    + destruct (list_collection_names db) as [names|msg].
      * eexists. split_and!; [reflexivity | done | vm_compute; lia].
      * eexists. split_and!; [reflexivity | done |].
        etrans; [apply Herr | vm_compute; lia].
    + eexists. split_and!; [reflexivity | done | vm_compute; lia].
    + eexists. split_and!; [reflexivity | done |].
      etrans; [apply Herr | vm_compute; lia].
  - eexists. split_and!; [reflexivity | done | vm_compute; lia].
Qed.

(** X25.  When importing the database module raises something other
    than [ImportError], [database] is "❌ Error: " followed by the
    beginning of the text of the exception: at most fifty code points of
    it, and all of it when it is no longer than that. *)
Theorem test_database_error_text p msg :
  import_database p = ImportRaises msg →
  ∃ t, dict_get "database" (test_database p) = Some (JStr ("❌ Error: " +:+ t))
       ∧ Str.isprefix t msg = true
       ∧ Utf8.code_points t ≤ 50
       ∧ (Utf8.code_points msg ≤ 50 → t = msg).
Proof.
  intros Himp. exists (Str.take_chars 50 msg). unfold test_database. rewrite Himp.
  split_and!; [done | apply take_chars_prefix | apply take_chars_points
              | apply take_chars_short].
Qed.

Lemma test_database_error_text_witness :
  dict_get "database" (test_database probe_import_raises)
  = Some (JStr "❌ Error: boom").
Proof.
  destruct (test_database_error_text probe_import_raises "boom" eq_refl)
    as (t & Hdb & _ & _ & Hshort).
  rewrite Hdb, Hshort; [done | vm_compute; lia].
Defined.

(** ** A source that cannot be read *)

(** X26.  The output file is opened before the source is read.  When
    the source of the first item is closed, while [os.makedirs] and the
    [open] succeed, [_save_files] raises a [ValueError]; the file of that
    item is left behind empty (emptied, if it was there before), every
    other file is as it was, and no source has been read. *)
Theorem save_files_closed_source env f rest subdir w :
  streams w !! file f = None →
  quiet env (ops w) (ops w + 2) →
  ∃ msg w',
    _save_files env (f :: rest) subdir w = (Raise (ValueError msg), w')
    ∧ fs_files w' !! out_path env (Posixpath.join (UPLOAD_DIR env) subdir)
                       (ticks w) f
      = Some []
    ∧ (∀ q, q ≠ out_path env (Posixpath.join (UPLOAD_DIR env) subdir) (ticks w) f →
            fs_files w' !! q = fs_files w !! q)
    ∧ streams w' = streams w.
Proof.
  intros Hclosed Hq. rewrite save_files_nonempty by done.
  unfold os_makedirs. rewrite (Hq (ops w)) by lia.
  rewrite save_loop_cons. unfold save_one, out_path. unfold_M. simpl.
  rewrite (Hq (S (ops w))) by lia. simpl. rewrite Hclosed.
  eexists _, _. split; [reflexivity |]. simpl. split_and!.
  - by rewrite lookup_insert_eq.
  - intros q Hne. by rewrite lookup_insert_ne.
  - done.
Qed.

Lemma save_files_closed_source_witness :
  ∃ msg w',
    _save_files env_ticking [mk_UploadFile (Some "a.png") 9] "custom"
      world_three_uploads
    = (Raise (ValueError msg), w')
    ∧ fs_files w' !! "/srv/app/uploads/custom/20240309070501000000_a.png"
      = Some [].
Proof.
  destruct (save_files_closed_source env_ticking (mk_UploadFile (Some "a.png") 9)
              [] "custom" world_three_uploads) as (msg & w' & Hrun & Hfile & _).
  - by vm_compute.
  - intros n _. reflexivity.
  - exists msg, w'. split; [exact Hrun | exact Hfile].
Defined.

(** ** The placeholder name *)

(** C9.  An item whose filename is the empty string is stored under the
    placeholder.  [filename_or_file] gives [file] for it; whenever the
    call returns, the path returned for the item is the destination
    directory, the time stamp of the item, and [_file], and a file is
    there; and the call does return when every source is open and no
    filesystem operation fails. *)
Theorem empty_filename_stored_as_file env files subdir w i f :
  files !! i = Some f →
  filename f = Some EmptyString →
  filename_or_file f = "file"
  ∧ (∀ paths w', _save_files env files subdir w = (Return paths, w') →
       paths !! i
       = Some (Posixpath.dir_prefix (Posixpath.join (UPLOAD_DIR env) subdir)
               +:+ Datetime.strftime_YmdHMSf (utcnow env (ticks w + i))
               +:+ "_file")
       ∧ is_Some (fs_files w'
                    !! (Posixpath.dir_prefix
                          (Posixpath.join (UPLOAD_DIR env) subdir)
                        +:+ Datetime.strftime_YmdHMSf (utcnow env (ticks w + i))
                        +:+ "_file")))
  ∧ (Forall (λ f, is_Some (streams w !! file f)) files →
     quiet env (ops w) (ops w + 1 + 3 * length files) →
     ∃ paths w', _save_files env files subdir w = (Return paths, w')).
Proof.
  intros Hi Hname.
  assert (Hfile : filename_or_file f = "file")
    by (unfold filename_or_file; by rewrite Hname).
  split_and!; [done | |].
  - intros paths w' Hrun.
    pose proof (save_files_Return_exist _ _ _ _ _ _ Hrun) as Hex.
    rewrite Forall_forall in Hex.
    apply save_files_inv in Hrun as [_ Hret]. rewrite (Hret _ eq_refl) in *.
    assert (Hp : generated_paths env (Posixpath.join (UPLOAD_DIR env) subdir)
                   (ticks w) files !! i
                 = Some (Posixpath.dir_prefix
                           (Posixpath.join (UPLOAD_DIR env) subdir)
                         +:+ Datetime.strftime_YmdHMSf (utcnow env (ticks w + i))
                         +:+ "_file")).
    { rewrite generated_paths_lookup, Hi. simpl. f_equal.
      by rewrite out_path_eq, Hfile. }
    split; [exact Hp |]. apply Hex. by eapply list_elem_of_lookup_2.
  - intros Hopen Hq. rewrite Forall_forall in Hopen.
    assert (Hne : files ≠ []) by (by destruct files).
    destruct (save_files_reads env files subdir w Hne Hopen Hq) as (w' & Hrun & _).
    eauto.
Qed.

Lemma empty_filename_stored_as_file_witness :
  filename_or_file (mk_UploadFile (Some EmptyString) 0) = "file"
  ∧ ∃ paths w',
      _save_files env_ticking [mk_UploadFile (Some EmptyString) 0] "custom"
        world_three_uploads = (Return paths, w')
      ∧ paths !! 0 = Some "/srv/app/uploads/custom/20240309070501000000_file"
      ∧ is_Some (fs_files w'
                   !! "/srv/app/uploads/custom/20240309070501000000_file").
Proof.
  destruct (empty_filename_stored_as_file env_ticking
              [mk_UploadFile (Some EmptyString) 0] "custom" world_three_uploads
              0 (mk_UploadFile (Some EmptyString) 0) eq_refl eq_refl)
    as (Hname & Hpath & Hreturns).
  split; [exact Hname |].
  destruct Hreturns as (paths & w' & Hrun).
  - repeat constructor; vm_compute; eauto.
  - intros n _. reflexivity.
  - destruct (Hpath paths w' Hrun) as [Hp Hex].
    exists paths, w'. split_and!; [exact Hrun | exact Hp | exact Hex].
Defined.
